(** * ConRad voice transcription service: [voice-service/voice_server.py]

    A shallow embedding of the FastAPI service and the properties of its
    three operations: the lazily loaded model ([get_model]), the health
    probe ([health_check]) and the upload endpoint ([transcribe_audio]).

    Conventions of the embedding.
    - A Python [str] is a [string] holding its UTF-8 bytes.  The service only
      searches for ASCII substrings, splits at ASCII separators and compares
      with ASCII extensions, and these operations commute with the encoding.
    - Python values that flow through the endpoint untyped (the model's
      result, the JSON payload) live in the small universe [value].
    - Effects are explicit: a computation is a function on the [World]
      (the module global [model], the temporary directory, a log of the
      calls made to the outside), and it ends in a value or in a raised
      exception.  The outcomes of the calls the service cannot decide itself
      (reading the upload, creating and writing the temporary file, loading
      and running the model, probing CUDA) are given by an [Env].
    - Exceptions are the ones derived from Python's [Exception].
    - A console notice ([print]) leaves no trace in the [World]; what counts
      is whether the console takes it: a notice that cannot be written
      raises, as any other call does. *)

From Stdlib Require Import ZArith QArith Ascii String.
From Stdlib.Strings Require Import Byte.
From Stdlib Require Import DecimalString.
From stdpp Require Import gmap strings list.

Local Open Scope Z_scope.
Local Set Warnings "-register-all".

(** ** Python string operations used by the service *)

Module PyStr.

(** [t in s] for two strings. *)
Fixpoint contains (t s : string) : bool :=
  String.prefix t s ||
  match s with
  | EmptyString => false
  | String _ s' => contains t s'
  end.

(** [s.rfind(c)] for a one-character [c]: the highest index, or [-1]. *)
Fixpoint rfind_from (c : ascii) (s : string) (i acc : Z) : Z :=
  match s with
  | EmptyString => acc
  | String a s' => rfind_from c s' (i + 1) (if Ascii.eqb a c then i else acc)
  end.

Definition rfind (c : ascii) (s : string) : Z := rfind_from c s 0 (-1).

(** [s[:n]] and [s[n:]] for [0 <= n]. *)
Fixpoint take (n : nat) (s : string) : string :=
  match n, s with
  | S n', String a s' => String a (take n' s')
  | _, _ => EmptyString
  end.

Fixpoint drop (n : nat) (s : string) : string :=
  match n, s with
  | S n', String _ s' => drop n' s'
  | _, _ => s
  end.

Definition slice_to (s : string) (n : Z) : string := take (Z.to_nat n) s.
Definition slice_from (s : string) (n : Z) : string := drop (Z.to_nat n) s.

(** [s[i:i+1]]: one character, or the empty string past the end. *)
Definition slice1 (s : string) (i : Z) : string := take 1 (drop (Z.to_nat i) s).

(** [str.lower] on the ASCII letters; every other byte is left alone. *)
Definition lower_ascii (a : ascii) : ascii :=
  let n := N_of_ascii a in
  if ((65 <=? n) && (n <=? 90))%N then ascii_of_N (n + 32) else a.

Fixpoint lower (s : string) : string :=
  match s with
  | EmptyString => EmptyString
  | String a s' => String (lower_ascii a) (lower s')
  end.

(** [str.strip()]: the ASCII white space of [str.isspace]. *)
Definition isspace (a : ascii) : bool :=
  let n := N_of_ascii a in
  (((9 <=? n) && (n <=? 13)) || ((28 <=? n) && (n <=? 32)))%N.

Fixpoint lstrip (s : string) : string :=
  match s with
  | String a s' => if isspace a then lstrip s' else s
  | EmptyString => EmptyString
  end.

Fixpoint rstrip (s : string) : string :=
  match s with
  | EmptyString => EmptyString
  | String a s' =>
      match rstrip s' with
      | EmptyString => if isspace a then EmptyString else String a EmptyString
      | r => String a r
      end
  end.

Definition strip (s : string) : string := rstrip (lstrip s).

(** [sep.join(parts)]. *)
Fixpoint join (sep : string) (parts : list string) : string :=
  match parts with
  | [] => EmptyString
  | [p] => p
  | p :: rest => p +:+ sep +:+ join sep rest
  end.

End PyStr.

(** ** [os.path.splitext] (posixpath, through [genericpath._splitext]) *)

Module PosixPath.

Definition sep : ascii := "/"%char.
Definition extsep : ascii := "."%char.

(** The loop that skips the leading dots of the last path component:
    [k] positions remain to be inspected, starting at [filenameIndex]. *)
Fixpoint skip_dots (p : string) (filenameIndex dotIndex : Z) (k : nat)
  : string * string :=
  match k with
  | O => (p, EmptyString)
  | S k' =>
      if negb (String.eqb (PyStr.slice1 p filenameIndex)
                          (String extsep EmptyString))
      then (PyStr.slice_to p dotIndex, PyStr.slice_from p dotIndex)
      else skip_dots p (filenameIndex + 1) dotIndex k'
  end.

Definition splitext (p : string) : string * string :=
  let sepIndex := PyStr.rfind sep p in
  let dotIndex := PyStr.rfind extsep p in
  if sepIndex <? dotIndex
  then skip_dots p (sepIndex + 1) dotIndex (Z.to_nat (dotIndex - (sepIndex + 1)))
  else (p, EmptyString).

End PosixPath.

(** ** Python values and exceptions *)

(** The dynamically typed values the endpoint handles: the result of the
    model, the objects found under a name, the JSON payloads. *)
Inductive value :=
| VNone
| VBool (b : bool)
| VStr (s : string)
| VFloat (q : Q)
| VList (items : list value)
| VDict (entries : list (string * value))
| VObject (cls : string) (attrs : list (string * value)).

Definition type_name (v : value) : string :=
  match v with
  | VNone => "NoneType"
  | VBool _ => "bool"
  | VStr _ => "str"
  | VFloat _ => "float"
  | VList _ => "list"
  | VDict _ => "dict"
  | VObject cls _ => cls
  end.

(** The exceptions of the service, all of them subclasses of [Exception]:
    [HTTPException] is FastAPI's (through Starlette's, a direct subclass of
    [Exception]); [LibraryError] stands for whatever a library call raises
    (an [OSError] of the file system, a [RuntimeError] of the model). *)
Inductive exn :=
| HTTPException (status_code : Z) (detail : string)
| TypeError (msg : string)
| NameError (msg : string)
| KeyError (msg : string)
| AttributeError (msg : string)
| LibraryError (cls msg : string).

(** The loaded Whisper model. *)
Inductive ModelHandle := WhisperModel (name : string) (id : nat).

(** What the process does to the outside, in order. *)
Inductive call :=
| LoadModel (name : string) (loaded : bool)
| CreateTemp (path : string)
| FlushTemp (path : string) (data : list byte)
| Transcribe (m : ModelHandle) (path : string) (audio : option (list byte))
| Unlink (path : string).

(** The process state: the module global [model], the files of the temporary
    directory, the write buffers of the open temporary files, and the log. *)
Record World := mkWorld {
  model : option ModelHandle;
  disk : gmap string (list byte);
  buffers : gmap string (list byte);
  calls : list call
}.

(** The outcomes of the calls that one request (or one start-up) makes to
    the outside. *)
Record Env := mkEnv {
  (** [whisper.load_model(name)] *)
  env_load_model : string -> exn + ModelHandle;
  (** [tempfile.NamedTemporaryFile]: failure, or the directory, prefix and
      random part of the name that was picked *)
  env_tempname : exn + string;
  (** [await file.read()]: [None] when the upload is read in full *)
  env_read : option exn;
  (** [temp_file.write(content)]: [None] when all is accepted, or the number
      of bytes taken before the error *)
  env_write : option (nat * exn);
  (** [whisper_model.transcribe(path)], from what is on disk under [path] *)
  env_transcribe : ModelHandle -> option (list byte) -> exn + value;
  (** [torch.cuda.is_available()] *)
  env_cuda : bool;
  (** [print(text)]: [None] when the console takes the text, or the class
      and the message of what is raised (a [UnicodeEncodeError] on a console
      that cannot encode the text, an [OSError] on a closed one) *)
  env_print : string -> option (string * string)
}.

(** The upload handed to the endpoint (Starlette's [UploadFile]). *)
Record UploadFile := mkUpload {
  filename : option string;
  content_type : option string;
  upload_bytes : list byte
}.

(** ** Computations: state and exceptions *)

Definition M (A : Type) : Type := World -> (exn + A) * World.

Definition ret {A} (a : A) : M A := fun w => (inr a, w).

Definition raise {A} (e : exn) : M A := fun w => (inl e, w).

Definition bind {A B} (m : M A) (k : A -> M B) : M B :=
  fun w =>
    match m w with
    | (inr a, w') => k a w'
    | (inl e, w') => (inl e, w')
    end.

Declare Scope py_scope.
Delimit Scope py_scope with py.
Notation "x <- m ;; k" := (bind m (fun x => k))
  (at level 100, m at next level, right associativity) : py_scope.
Notation "m ;;; k" := (bind m (fun _ => k))
  (at level 100, right associativity) : py_scope.
Local Open Scope py_scope.

(** [try: body  except Exception as e: handler(e)] *)
Definition try_except {A} (body : M A) (handler : exn -> M A) : M A :=
  fun w =>
    match body w with
    | (inr a, w') => (inr a, w')
    | (inl e, w') => handler e w'
    end.

(** [try: body  finally: cleanup]: the clean-up runs on both exits, and an
    exception of its own replaces the outcome of the body. *)
Definition try_finally {A} (body : M A) (cleanup : M unit) : M A :=
  fun w =>
    match body w with
    | (r, w') =>
        match cleanup w' with
        | (inr _, w'') => (r, w'')
        | (inl e, w'') => (inl e, w'')
        end
    end.

Fixpoint mapM {A B} (f : A -> M B) (l : list A) : M (list B) :=
  match l with
  | [] => ret []
  | a :: l' => b <- f a ;; bs <- mapM f l' ;; ret (b :: bs)
  end.

Definition log (c : call) : M unit :=
  fun w => (inr tt, mkWorld (model w) (disk w) (buffers w) (calls w ++ [c])).

Definition get_model_global : M (option ModelHandle) :=
  fun w => (inr (model w), w).

Definition set_model_global (m : ModelHandle) : M unit :=
  fun w => (inr tt, mkWorld (Some m) (disk w) (buffers w) (calls w)).

(** The world with more calls in its log. *)
Definition add_calls (w : World) (cs : list call) : World :=
  mkWorld (model w) (disk w) (buffers w) (calls w ++ cs).

Definition lift_outcome {A} (o : exn + A) : M A :=
  match o with
  | inr a => ret a
  | inl e => raise e
  end.

(** ** [str(e)] *)

Definition str_of_Z (z : Z) : string := NilZero.string_of_int (Z.to_int z).

(** [str(e)]: the message of a built-in exception, the quoted key of a
    [KeyError], and Starlette's ["{status_code}: {detail}"] for an
    [HTTPException]. *)
Definition str_exn (e : exn) : string :=
  match e with
  | HTTPException status_code detail => str_of_Z status_code +:+ ": " +:+ detail
  | TypeError msg => msg
  | NameError msg => msg
  | KeyError msg => msg
  | AttributeError msg => msg
  | LibraryError _ msg => msg
  end.

Definition str_of_nat (n : nat) : string := str_of_Z (Z.of_nat n).

(** A file name inside an f-string: [None] is written as its name. *)
Definition str_of_optional (s : option string) : string := default "None" s.

(** ** The console *)

Definition console_error (c : string * string) : exn :=
  LibraryError (fst c) (snd c).

(** [print(text)] *)
Definition print (env : Env) (text : string) : M unit :=
  match env_print env text with
  | Some c => raise (console_error c)
  | None => ret tt
  end.

(** The console takes every notice. *)
Definition console_works (env : Env) : Prop :=
  forall text, env_print env text = None.

(** ** Names in scope

    A name that the body of a function never assigns is looked up among the
    module's globals and then among the built-ins. *)

Definition module_globals : list string :=
  [ "__name__"; "__doc__"; "__file__"; "__builtins__";
    "FastAPI"; "File"; "UploadFile"; "HTTPException"; "CORSMiddleware";
    "whisper"; "tempfile"; "os"; "uvicorn"; "torch";
    "app"; "model"; "get_model"; "startup_event"; "root"; "health_check";
    "transcribe_audio" ].

Definition builtins : list string :=
  [ "abs"; "aiter"; "all"; "anext"; "any"; "ascii"; "bin"; "bool";
    "breakpoint"; "bytearray"; "bytes"; "callable"; "chr"; "classmethod";
    "compile"; "complex"; "delattr"; "dict"; "dir"; "divmod"; "enumerate";
    "eval"; "exec"; "filter"; "float"; "format"; "frozenset"; "getattr";
    "globals"; "hasattr"; "hash"; "help"; "hex"; "id"; "input"; "int";
    "isinstance"; "issubclass"; "iter"; "len"; "list"; "locals"; "map";
    "max"; "memoryview"; "min"; "next"; "object"; "oct"; "open"; "ord";
    "pow"; "print"; "property"; "range"; "repr"; "reversed"; "round"; "set";
    "setattr"; "slice"; "sorted"; "staticmethod"; "str"; "sum"; "super";
    "tuple"; "type"; "vars"; "zip"; "__import__";
    "True"; "False"; "None"; "Ellipsis"; "NotImplemented"; "__debug__";
    "copyright"; "credits"; "license"; "exit"; "quit";
    "BaseException"; "Exception"; "TypeError"; "NameError"; "KeyError";
    "AttributeError"; "OSError"; "RuntimeError"; "ValueError" ].

Definition load_name (x : string) : M value :=
  if existsb (String.eqb x) (module_globals ++ builtins)
  then ret (VObject "object" [])
  else raise (NameError ("name '" +:+ x +:+ "' is not defined")).

(** ** Operations on dynamically typed values *)

Fixpoint assoc (k : string) (l : list (string * value)) : option value :=
  match l with
  | [] => None
  | (k', v) :: l' => if String.eqb k k' then Some v else assoc k l'
  end.

(** [v[key]] for a string key. *)
Definition getitem (v : value) (key : string) : M value :=
  match v with
  | VDict entries =>
      match assoc key entries with
      | Some x => ret x
      | None => raise (KeyError ("'" +:+ key +:+ "'"))
      end
  | VStr _ => raise (TypeError "string indices must be integers, not 'str'")
  | VList _ => raise (TypeError "list indices must be integers or slices, not str")
  | _ => raise (TypeError ("'" +:+ type_name v +:+ "' object is not subscriptable"))
  end.

(** [v.name] for a data attribute. *)
Definition getattr (v : value) (name : string) : M value :=
  let missing :=
    AttributeError ("'" +:+ type_name v +:+ "' object has no attribute '"
                    +:+ name +:+ "'") in
  match v with
  | VObject _ attrs =>
      match assoc name attrs with
      | Some x => ret x
      | None => raise missing
      end
  | _ => raise missing
  end.

(** [v.strip()] *)
Definition call_strip (v : value) : M string :=
  match v with
  | VStr s => ret (PyStr.strip s)
  | VObject _ attrs =>
      match assoc "strip" attrs with
      | Some x => raise (TypeError ("'" +:+ type_name x +:+ "' object is not callable"))
      | None => raise (AttributeError ("'" +:+ type_name v
                                      +:+ "' object has no attribute 'strip'"))
      end
  | _ => raise (AttributeError ("'" +:+ type_name v
                                +:+ "' object has no attribute 'strip'"))
  end.

Fixpoint characters (s : string) : list value :=
  match s with
  | EmptyString => []
  | String a s' => VStr (String a EmptyString) :: characters s'
  end.

(** [iter(v)], as the list of the items it yields. *)
Definition iterate (v : value) : M (list value) :=
  match v with
  | VList items => ret items
  | VDict entries => ret (map (fun kv => VStr (fst kv)) entries)
  | VStr s => ret (characters s)
  | _ => raise (TypeError ("'" +:+ type_name v +:+ "' object is not iterable"))
  end.

(** ** The temporary file and the file system *)

Definition set_files (d b : gmap string (list byte)) : M unit :=
  fun w => (inr tt, mkWorld (model w) d b (calls w)).

(** [tempfile.NamedTemporaryFile(delete=False, suffix=...)]: the file is
    created empty and exclusively, and opened with an empty write buffer.
    The result is its [name]. *)
Definition NamedTemporaryFile (env : Env) (suffix : string) : M string :=
  stem <- lift_outcome (env_tempname env) ;;
  let name := stem +:+ suffix in
  fun w =>
    match disk w !! name with
    | Some _ =>
        raise (LibraryError "FileExistsError"
                 "[Errno 17] No usable temporary file name found") w
    | None =>
        (set_files (<[name := []]> (disk w)) (<[name := []]> (buffers w)) ;;;
         log (CreateTemp name) ;;;
         ret name) w
    end.

(** [temp_file.write(content)]: the bytes go to the buffer of the open file. *)
Definition temp_file_write (env : Env) (name : string) (content : list byte)
  : M unit :=
  fun w =>
    match buffers w !! name with
    | None => raise (LibraryError "ValueError" "write to closed file") w
    | Some buf =>
        match env_write env with
        | None => set_files (disk w) (<[name := buf ++ content]> (buffers w)) w
        | Some (n, e) =>
            (set_files (disk w) (<[name := buf ++ take n content]> (buffers w)) ;;;
             raise e) w
        end
    end.

(** [temp_file.close()]: the buffer is flushed to the file. *)
Definition temp_file_close (name : string) : M unit :=
  fun w =>
    match buffers w !! name with
    | None => ret tt w
    | Some buf =>
        (set_files (<[name := default [] (disk w !! name) ++ buf]> (disk w))
                   (delete name (buffers w)) ;;;
         log (FlushTemp name buf)) w
    end.

(** [with <file> as temp_file: body]: the file is closed on both exits and
    an exception of the body goes on. *)
Definition with_temp_file {A} (name : string) (body : M A) : M A :=
  try_finally body (temp_file_close name).

(** [await file.read()] *)
Definition file_read (env : Env) (file : UploadFile) : M (list byte) :=
  match env_read env with
  | Some e => raise e
  | None => ret (upload_bytes file)
  end.

Definition os_path_exists (path : string) : M bool :=
  fun w => (inr (bool_decide (is_Some (disk w !! path))), w).

Definition os_unlink (path : string) : M unit :=
  fun w =>
    match disk w !! path with
    | Some _ => (set_files (delete path (disk w)) (buffers w) ;;;
                 log (Unlink path)) w
    | None =>
        raise (LibraryError "FileNotFoundError"
                 ("[Errno 2] No such file or directory: '" +:+ path +:+ "'")) w
    end.

(** [os.path.splitext(file.filename)]: [os.fspath] refuses [None]. *)
Definition os_path_splitext (p : option string) : M (string * string) :=
  match p with
  | Some s => ret (PosixPath.splitext s)
  | None =>
      raise (TypeError "expected str, bytes or os.PathLike object, not NoneType")
  end.

(** ** The model *)

(** [whisper.load_model(name)] *)
Definition whisper_load_model (env : Env) (name : string) : M ModelHandle :=
  match env_load_model env name with
  | inr m => log (LoadModel name true) ;;; ret m
  | inl e => log (LoadModel name false) ;;; raise e
  end.

(** [whisper_model.transcribe(path)]: the model reads what is on disk. *)
Definition model_transcribe (env : Env) (whisper_model : option ModelHandle)
    (path : string) : M value :=
  match whisper_model with
  | None => raise (AttributeError "'NoneType' object has no attribute 'transcribe'")
  | Some m =>
      fun w =>
        let audio := disk w !! path in
        (log (Transcribe m path audio) ;;;
         lift_outcome (env_transcribe env m audio)) w
  end.

Definition loading_notice : string := "🔄 Loading Whisper base model...".
Definition loaded_notice : string := "✅ Model loaded successfully!".

(** [get_model]: the value of the global [model], loaded when it is [None]. *)
Definition get_model (env : Env) : M (option ModelHandle) :=
  m <- get_model_global ;;
  (match m with
   | None =>
       print env loading_notice ;;;
       loaded <- whisper_load_model env "base" ;;
       set_model_global loaded ;;;
       print env loaded_notice
   | Some _ => ret tt
   end) ;;;
  get_model_global.

(** ** The handlers *)

(** [startup_event]: the model is loaded ahead, a failure is only reported. *)
Definition startup_event (env : Env) : M unit :=
  print env "🎤 ConRad Voice Service Starting..." ;;;
  print env "   Port: 5001" ;;;
  print env "   Model: FasterWhisper large-v3" ;;;
  try_except (get_model env ;;; ret tt)
    (fun e =>
       print env ("⚠️ Model pre-loading failed: " +:+ str_exn e) ;;;
       print env "   Model will be loaded on first request").

Definition root : M value :=
  ret (VDict
    [ ("service", VStr "ConRad Voice Transcription");
      ("model", VStr "faster-whisper-large-v3");
      ("status", VStr "running");
      ("endpoints", VDict
         [ ("/transcribe", VStr "POST - Upload audio file for transcription");
           ("/health", VStr "GET - Health check") ]) ]).

Definition health_check (env : Env) : M value :=
  m <- get_model_global ;;
  ret (VDict
    [ ("status", VStr "healthy");
      ("model_loaded", VBool (bool_decide (m <> None)));
      ("cuda_available", VBool (env_cuda env)) ]).

(** [allowed_types], bound at the head of the handler and never read. *)
Definition allowed_types : list string :=
  [ "audio/webm"; "audio/wav"; "audio/mp3"; "audio/mpeg";
    "audio/m4a"; "audio/ogg"; "audio/x-wav"; "audio/wave";
    "video/webm" ].

Definition content_type_markers : list string := ["audio"; "video/webm"].

Definition allowed_extensions : list string :=
  [".webm"; ".wav"; ".mp3"; ".m4a"; ".ogg"].

Definition or_empty (s : option string) : string := default "" s.

(** The check of the file type, the first statement group of the endpoint. *)
Definition validate_file_type (file : UploadFile) : M unit :=
  let content_type := or_empty (content_type file) in
  if negb (existsb (fun t => PyStr.contains t content_type) content_type_markers)
  then
    parts <- os_path_splitext (filename file) ;;
    let ext := PyStr.lower (snd parts) in
    if negb (existsb (String.eqb ext) allowed_extensions)
    then raise (HTTPException 400
                  ("Unsupported file type: " +:+ content_type
                   +:+ ". Use webm, wav, mp3, m4a, or ogg"))
    else ret tt
  else ret tt.

(** The [with] block: the upload is read and written to a new temporary
    file; the result is ([content], [temp_path]). *)
Definition save_to_temp_file (env : Env) (file : UploadFile)
  : M (list byte * string) :=
  temp_file <- NamedTemporaryFile env ".webm" ;;
  with_temp_file temp_file
    (content <- file_read env file ;;
     temp_file_write env temp_file content ;;;
     ret (content, temp_file)).

(** The notice of line 102. *)
Definition transcribing_notice (file : UploadFile) (content : list byte) : string :=
  "🎤 Transcribing: " +:+ str_of_optional (filename file)
  +:+ " (" +:+ str_of_nat (length content) +:+ " bytes)".

(** The body of the inner [try], first half: the model is obtained and
    run on the staged file. *)
Definition invoke_model (env : Env) (file : UploadFile) (content : list byte)
    (temp_path : string) : M value :=
  whisper_model <- get_model env ;;
  print env (transcribing_notice file content) ;;;
  model_transcribe env whisper_model temp_path.

(** The notice of line 112 (lengths and slices are taken on the bytes). *)
Definition transcribed_notice (full_text : string) : string :=
  if 100 <? Z.of_nat (String.length full_text)
  then "✅ Transcribed: '" +:+ PyStr.take 100 full_text +:+ "...' "
  else "✅ Transcribed: '" +:+ full_text +:+ "'".

(** The body of the inner [try], second half: from [result] to the payload. *)
Definition shape_response (env : Env) (result : value) : M value :=
  full_text <- getitem result "text" ;;
  segments <- load_name "segments" ;;
  items <- iterate segments ;;
  texts <- mapM (fun segment => t <- getattr segment "text" ;; call_strip t) items ;;
  let full_text := PyStr.join " " texts in
  print env (transcribed_notice full_text) ;;;
  let text := PyStr.strip full_text in
  info <- load_name "info" ;;
  language <- getattr info "language" ;;
  info <- load_name "info" ;;
  language_probability <- getattr info "language_probability" ;;
  info <- load_name "info" ;;
  duration <- getattr info "duration" ;;
  ret (VDict
    [ ("success", VBool true);
      ("text", VStr text);
      ("language", language);
      ("language_probability", language_probability);
      ("duration", duration) ]).

(** The body of the inner [try]. *)
Definition run_model (env : Env) (file : UploadFile) (content : list byte)
    (temp_path : string) : M value :=
  result <- invoke_model env file content temp_path ;;
  shape_response env result.

(** The [finally] of the inner [try]. *)
Definition clean_up (temp_path : string) : M unit :=
  present <- os_path_exists temp_path ;;
  if present then os_unlink temp_path else ret tt.

Definition error_notice (e : exn) : string :=
  "❌ Transcription error: " +:+ str_exn e.

(** The outer [except Exception as e]: the error is noted on the console and
    raised again as an [HTTPException]. *)
Definition on_exception (env : Env) (e : exn) : M value :=
  print env (error_notice e) ;;;
  raise (HTTPException 500 (str_exn e)).


(** [transcribe_audio], the handler of [POST /transcribe]. *)
Definition transcribe_audio (env : Env) (file : UploadFile) : M value :=
  try_except
    (validate_file_type file ;;;
     staged <- save_to_temp_file env file ;;
     let content := fst staged in
     let temp_path := snd staged in
     try_finally (run_model env file content temp_path) (clean_up temp_path))
    (on_exception env).

(** ** What FastAPI sends for the outcome of a handler *)

Record Response := mkResponse {
  status : Z;
  body : value
}.

(** A returned value is sent with status 200, an [HTTPException] with its own
    status and its detail; anything else would leave the handler unhandled
    (status 500 from the server's last line of defence). *)
Definition respond (r : exn + value) : Response :=
  match r with
  | inr v => mkResponse 200 v
  | inl (HTTPException status_code detail) =>
      mkResponse status_code (VDict [("detail", VStr detail)])
  | inl _ => mkResponse 500 (VStr "Internal Server Error")
  end.


(** ** Processes: several calls in a row *)

(** Calls of [get_model] one after the other, each with the outcomes of its
    own time; an exception ends the call it is raised in, not the process. *)
Fixpoint get_model_calls (envs : list Env) (w : World)
  : list (exn + option ModelHandle) * World :=
  match envs with
  | [] => ([], w)
  | env :: rest =>
      let (r, w') := get_model env w in
      let (rs, w'') := get_model_calls rest w' in
      (r :: rs, w'')
  end.

Definition is_loaded (c : call) : bool :=
  match c with
  | LoadModel _ true => true
  | _ => false
  end.

Definition is_load_attempt (c : call) : bool :=
  match c with
  | LoadModel _ _ => true
  | _ => false
  end.

Definition is_transcribe (c : call) : bool :=
  match c with
  | Transcribe _ _ _ => true
  | _ => false
  end.

Definition count (p : call -> bool) (cs : list call) : nat :=
  length (filter (fun c => p c = true) cs).


(** The world of a process that has just started. *)
Definition init_world : World := mkWorld None ∅ ∅ [].

(** ** Concrete requests *)

Definition whisper_result : value :=
  VDict [ ("text", VStr " hello world");
          ("segments", VList [VDict [("text", VStr " hello world")]]);
          ("language", VStr "en") ].

Definition RuntimeError_empty_audio : exn :=
  LibraryError "RuntimeError" "cannot reshape tensor of 0 elements".

(** A machine on which everything works: the model loads and recognises
    speech in any file that is not empty. *)
Definition env_ok : Env :=
  mkEnv (fun name => inr (WhisperModel name 0))
        (inr "/tmp/tmpk3x9qz1a")
        None
        None
        (fun _ audio =>
           match audio with
           | Some (_ :: _) => inr whisper_result
           | _ => inl RuntimeError_empty_audio
           end)
        false
        (fun _ => None).

(** The same machine with a model that cannot be loaded. *)
Definition env_no_model : Env :=
  mkEnv (fun _ => inl (LibraryError "RuntimeError" "checksum does not match"))
        (env_tempname env_ok) None None (env_transcribe env_ok) false
        (env_print env_ok).

(** The same machine with a disk that is full after three bytes. *)
Definition env_disk_full : Env :=
  mkEnv (env_load_model env_ok) (env_tempname env_ok) None
        (Some (3%nat, LibraryError "OSError" "[Errno 28] No space left on device"))
        (env_transcribe env_ok) false
        (env_print env_ok).

Definition non_ascii (a : ascii) : bool :=
  match a with
  | Ascii _ _ _ _ _ _ _ high => high
  end.

Fixpoint has_non_ascii (s : string) : bool :=
  match s with
  | EmptyString => false
  | String a s' => non_ascii a || has_non_ascii s'
  end.

Definition UnicodeEncodeError : string * string :=
  ("UnicodeEncodeError",
   "'charmap' codec can't encode character: character maps to <undefined>").

(** A console that takes ASCII text only. *)
Definition ascii_console (text : string) : option (string * string) :=
  if has_non_ascii text then Some UnicodeEncodeError else None.

(** The machine on which everything works, on such a console. *)
Definition env_ascii_console : Env :=
  mkEnv (env_load_model env_ok) (env_tempname env_ok) None None
        (env_transcribe env_ok) false ascii_console.


Definition speech : list byte := [x52; x49; x46; x46; x24; x00].

Definition clip_wav : UploadFile := mkUpload (Some "clip.wav") (Some "audio/wav") speech.
Definition clip_txt : UploadFile := mkUpload (Some "clip.txt") (Some "text/plain") speech.
Definition empty_webm : UploadFile := mkUpload (Some "blob") (Some "audio/webm") [].
Definition nameless : UploadFile := mkUpload None (Some "application/octet-stream") speech.
Definition recording_OGG : UploadFile := mkUpload (Some "take 1.OGG") None speech.

(** ** The routes *)

(** A request to one of the routes that the application registers. *)
Inductive request :=
| GET_root
| GET_health (env : Env)
| POST_transcribe (env : Env) (file : UploadFile).

(** The handler of a route. *)
Definition route (r : request) : M value :=
  match r with
  | GET_root => root
  | GET_health env => health_check env
  | POST_transcribe env file => transcribe_audio env file
  end.

(** Requests served one after the other: the outcome of each handler is sent
    as its response and the process goes on with the next request. *)
Fixpoint serve (rs : list request) (w : World) : list Response * World :=
  match rs with
  | [] => ([], w)
  | r :: rest =>
      let (o, w') := route r w in
      let (sent, w'') := serve rest w' in
      (respond o :: sent, w'')
  end.

(** The life of a process: the start-up event, then the requests; a process
    whose start-up raises serves nothing. *)
Definition run_process (env0 : Env) (rs : list request) : list Response * World :=
  match startup_event env0 init_world with
  | (inr _, w) => serve rs w
  | (inl _, w) => ([], w)
  end.

(** The call is not a run of a model other than [m]. *)
Definition uses_model (m : ModelHandle) (c : call) : Prop :=
  match c with
  | Transcribe m' _ _ => m' = m
  | _ => True
  end.


(** The process has one model at most: with the global unset no model has
    been loaded or run, with the global set one load has succeeded and every
    run was a run of the model the global holds. *)
Definition one_model (w : World) : Prop :=
  match model w with
  | None =>
      count is_loaded (calls w) = 0%nat /\ count is_transcribe (calls w) = 0%nat
  | Some m =>
      count is_loaded (calls w) = 1%nat /\ Forall (uses_model m) (calls w)
  end.

(** What the inner [try] leaves behind, from the global [model] before it:
    the global afterwards and the calls made.  A notice that the console
    refuses ends the inner [try] where it stands. *)
Definition model_effect (env : Env) (before : option ModelHandle)
    (notice : string) (p : string) (audio : option (list byte))
  : option ModelHandle * list call :=
  let run m :=
    match env_print env notice with
    | None => [Transcribe m p audio]
    | Some _ => []
    end in
  match before with
  | Some m => (Some m, run m)
  | None =>
      match env_print env loading_notice with
      | Some _ => (None, [])
      | None =>
          match env_load_model env "base" with
          | inl _ => (None, [LoadModel "base" false])
          | inr m =>
              (Some m,
               LoadModel "base" true ::
               match env_print env loaded_notice with
               | None => run m
               | Some _ => []
               end)
          end
      end
  end.

(** ** The request body *)

(** A part of the multipart body of [POST /transcribe], sent under the name
    of the parameter [file]: the [filename] of its Content-Disposition when
    it has one, its Content-Type when it has one, and its data. *)
Record FormPart := mkPart {
  part_filename : option string;
  part_content_type : option string;
  part_data : list byte
}.

(** Starlette's multipart parser: a part is a file, and becomes an
    [UploadFile], only when it carries a [filename]; without one it is a
    form field. *)
Definition upload_of_part (part : FormPart) : option UploadFile :=
  match part_filename part with
  | Some fn => Some (mkUpload (Some fn) (part_content_type part) (part_data part))
  | None => None
  end.

(** The body of the answer to a request that does not fit the signature of
    the handler (its further entries depend on the version of the
    libraries). *)
Definition validation_error : value :=
  VDict [("detail", VList [VDict [("loc", VList [VStr "body"; VStr "file"])]])].

(** [POST /transcribe] as FastAPI serves it: the handler is called with the
    upload when the part is a file; a form field where [file: UploadFile] is
    declared is answered with status 422 and the handler is not called. *)
Definition post_transcribe (env : Env) (part : FormPart) (w : World)
  : Response * World :=
  match upload_of_part part with
  | Some file =>
      let (o, w') := transcribe_audio env file w in (respond o, w')
  | None => (mkResponse 422 validation_error, w)
  end.

Definition part_without_filename : FormPart :=
  mkPart None (Some "application/octet-stream") speech.


(** * Properties *)

(** ** The string and path operations on examples *)

Example splitext_upper : PosixPath.splitext "clip.WAV" = ("clip", ".WAV").
Proof. reflexivity. Qed.

Example splitext_leading_dot :
  PosixPath.splitext "dir.d/.bashrc" = ("dir.d/.bashrc", "").
Proof. reflexivity. Qed.

Example splitext_last_dot : PosixPath.splitext "a/b.tar.ogg" = ("a/b.tar", ".ogg").
Proof. reflexivity. Qed.

Example contains_inside :
  PyStr.contains "audio" "application/x-audio; q=1" = true.
Proof. reflexivity. Qed.

Example contains_video_webm :
  existsb (fun t => PyStr.contains t "video/webm;codecs=vp8") content_type_markers
  = true.
Proof. reflexivity. Qed.

Example strip_both_ends : PyStr.strip "  hello world " = "hello world".
Proof. reflexivity. Qed.

Example str_of_http_exception :
  str_exn (HTTPException 400 "Bad") = "400: Bad".
Proof. reflexivity. Qed.

Example transcribing_notice_of_clip :
  transcribing_notice clip_wav speech = "🎤 Transcribing: clip.wav (6 bytes)".
Proof. reflexivity. Qed.

Example ascii_console_refuses_the_error_notice :
  ascii_console (error_notice (TypeError "x")) = Some UnicodeEncodeError.
Proof. reflexivity. Qed.

(** ** The steps, one by one *)

Lemma add_calls_nil w : add_calls w [] = w.
Proof. destruct w; unfold add_calls; simpl. by rewrite app_nil_r. Qed.

Lemma print_spec env text w :
  print env text w
  = match env_print env text with
    | Some c => (inl (console_error c), w)
    | None => (inr tt, w)
    end.
Proof. unfold print. by destruct (env_print env text). Qed.

Lemma console_works_ok : console_works env_ok.
Proof. intros text. reflexivity. Qed.

(** [get_model], case by case. *)
Lemma get_model_spec env w :
  get_model env w =
  match model w with
  | Some m => (inr (Some m), w)
  | None =>
      match env_print env loading_notice with
      | Some c => (inl (console_error c), w)
      | None =>
          match env_load_model env "base" with
          | inl e => (inl e, add_calls w [LoadModel "base" false])
          | inr m =>
              let w2 := mkWorld (Some m) (disk w) (buffers w)
                          (calls w ++ [LoadModel "base" true]) in
              match env_print env loaded_notice with
              | Some c => (inl (console_error c), w2)
              | None => (inr (Some m), w2)
              end
          end
      end
  end.
Proof.
  unfold get_model, bind at 1, get_model_global at 1.
  destruct (model w) as [m|] eqn:Hm.
  { unfold bind, ret, get_model_global. by rewrite Hm. }
  unfold bind at 1. unfold bind at 1. rewrite print_spec.
  destruct (env_print env loading_notice) as [c|]; [reflexivity|].
  unfold bind at 1, whisper_load_model.
  destruct (env_load_model env "base") as [e|m].
  { reflexivity. }
  unfold bind at 1. unfold bind at 1, log, ret, set_model_global.
  rewrite print_spec.
  destruct (env_print env loaded_notice); reflexivity.
Qed.

Lemma get_model_loaded env w m :
  model w = Some m -> get_model env w = (inr (Some m), w).
Proof. intros Hm. by rewrite get_model_spec, Hm. Qed.

Lemma get_model_load_ok env w m :
  console_works env ->
  model w = None -> env_load_model env "base" = inr m ->
  get_model env w
  = (inr (Some m),
     mkWorld (Some m) (disk w) (buffers w) (calls w ++ [LoadModel "base" true])).
Proof.
  intros Hc Hm Hload. by rewrite get_model_spec, Hm, !Hc, Hload.
Qed.

Lemma get_model_load_fails env w e :
  console_works env ->
  model w = None -> env_load_model env "base" = inl e ->
  get_model env w = (inl e, add_calls w [LoadModel "base" false]).
Proof.
  intros Hc Hm Hload. by rewrite get_model_spec, Hm, !Hc, Hload.
Qed.

(** [get_model] never returns [None]. *)
Lemma get_model_returns_handle env w r w' :
  get_model env w = (inr r, w') -> exists m, r = Some m /\ model w' = Some m.
Proof.
  rewrite get_model_spec.
  destruct (model w) as [m|] eqn:Hm.
  - intros [= <- <-]. eauto.
  - destruct (env_print env loading_notice); [done|].
    destruct (env_load_model env "base") as [e|m]; [done|]. simpl.
    destruct (env_print env loaded_notice); [done|].
    intros [= <- <-]. eauto.
Qed.

(** What the first half of the inner [try] leaves behind. *)
Lemma invoke_model_world env file content p w :
  let eff := model_effect env (model w) (transcribing_notice file content) p
               (disk w !! p) in
  snd (invoke_model env file content p w)
  = mkWorld (fst eff) (disk w) (buffers w) (calls w ++ snd eff).
Proof.
  unfold invoke_model, bind at 1, model_effect. rewrite get_model_spec.
  destruct (model w) as [m|] eqn:Hm.
  - unfold bind. rewrite print_spec.
    destruct (env_print env (transcribing_notice file content)); simpl.
    + destruct w; simpl in *. by rewrite app_nil_r, Hm.
    + unfold model_transcribe, bind, log, lift_outcome. simpl.
      rewrite Hm. by destruct (env_transcribe env m (disk w !! p)).
  - destruct (env_print env loading_notice); simpl.
    { destruct w; simpl in *. by rewrite app_nil_r, Hm. }
    destruct (env_load_model env "base") as [e|m]; simpl.
    { unfold add_calls. by rewrite Hm. }
    destruct (env_print env loaded_notice); simpl; [done|].
    unfold bind. rewrite print_spec.
    destruct (env_print env (transcribing_notice file content)); simpl; [done|].
    unfold model_transcribe, bind, log, lift_outcome. simpl.
    rewrite <- app_assoc.
    by destruct (env_transcribe env m (disk w !! p)).
Qed.

(** The first half of the inner [try] on a console that works. *)
Lemma invoke_model_spec env file content p w :
  console_works env ->
  invoke_model env file content p w =
  match model w with
  | Some m =>
      (env_transcribe env m (disk w !! p),
       add_calls w [Transcribe m p (disk w !! p)])
  | None =>
      match env_load_model env "base" with
      | inl e => (inl e, add_calls w [LoadModel "base" false])
      | inr m =>
          (env_transcribe env m (disk w !! p),
           mkWorld (Some m) (disk w) (buffers w)
             (calls w ++ [LoadModel "base" true; Transcribe m p (disk w !! p)]))
      end
  end.
Proof.
  intros Hc. unfold invoke_model, bind at 1. rewrite get_model_spec, !Hc.
  destruct (model w) as [m|] eqn:Hm.
  - unfold bind. rewrite print_spec, Hc.
    unfold model_transcribe, bind, log, lift_outcome, add_calls. simpl.
    by destruct (env_transcribe env m (disk w !! p)).
  - destruct (env_load_model env "base") as [e|m]; [done|]. simpl.
    unfold bind. rewrite print_spec, Hc.
    unfold model_transcribe, bind, log, lift_outcome. simpl.
    rewrite <- app_assoc. simpl.
    by destruct (env_transcribe env m (disk w !! p)).
Qed.

Lemma model_effect_quiet env before notice p audio :
  console_works env ->
  model_effect env before notice p audio =
  match before with
  | Some m => (Some m, [Transcribe m p audio])
  | None =>
      match env_load_model env "base" with
      | inl _ => (None, [LoadModel "base" false])
      | inr m => (Some m, [LoadModel "base" true; Transcribe m p audio])
      end
  end.
Proof. intros Hc. unfold model_effect. by rewrite !Hc. Qed.


Lemma load_name_segments w :
  load_name "segments" w = (inl (NameError "name 'segments' is not defined"), w).
Proof. reflexivity. Qed.

(** The second half never gets to its [return], and touches nothing. *)
Lemma shape_response_raises env result w :
  exists e, shape_response env result w = (inl e, w).
Proof.
  unfold shape_response, bind at 1.
  assert (snd (getitem result "text" w) = w) as Hp.
  { unfold getitem. destruct result; try reflexivity.
    by destruct (assoc "text" entries). }
  destruct (getitem result "text" w) as [[e|v] w'] eqn:Hg; simpl in Hp; subst w'.
  - by exists e.
  - exists (NameError "name 'segments' is not defined").
    unfold bind. by rewrite load_name_segments.
Qed.

(** A result with a [text], as Whisper gives it, ends in the [NameError]. *)
Lemma shape_response_of_dict env entries v w :
  assoc "text" entries = Some v ->
  shape_response env (VDict entries) w
  = (inl (NameError "name 'segments' is not defined"), w).
Proof.
  intros Ht. unfold shape_response, bind at 1, getitem. rewrite Ht.
  unfold ret, bind. by rewrite load_name_segments.
Qed.
(** The check of the file type reads the upload and nothing else. *)
Lemma validate_file_type_pure file w :
  validate_file_type file w = (fst (validate_file_type file init_world), w).
Proof.
  unfold validate_file_type.
  destruct (negb (existsb _ content_type_markers)); [|reflexivity].
  unfold bind, os_path_splitext.
  destruct (filename file) as [fn|]; [|reflexivity].
  unfold ret.
  by destruct (negb (existsb _ allowed_extensions)).
Qed.

(** Staging, when it succeeds: the temporary file is new, it holds the whole
    upload, it is closed, and nothing else has happened. *)
Lemma save_to_temp_file_inr env file w content p w1 :
  save_to_temp_file env file w = (inr (content, p), w1) ->
  content = upload_bytes file /\
  disk w !! p = None /\
  env_read env = None /\
  env_write env = None /\
  w1 = mkWorld (model w) (<[p := upload_bytes file]> (disk w))
         (delete p (buffers w))
         (calls w ++ [CreateTemp p; FlushTemp p (upload_bytes file)]).
Proof.
  unfold save_to_temp_file, bind at 1, NamedTemporaryFile, bind at 1, lift_outcome.
  destruct (env_tempname env) as [e|stem]; [discriminate|].
  unfold ret at 1. simpl.
  destruct (disk w !! (stem +:+ ".webm")) as [old|] eqn:Hfree; [discriminate|].
  unfold bind, set_files, log, ret. simpl.
  unfold with_temp_file, try_finally, bind, file_read.
  destruct (env_read env) as [e|]; simpl.
  { unfold temp_file_close. simpl. rewrite lookup_insert_eq.
    unfold bind, set_files, log. simpl. discriminate. }
  unfold temp_file_write. simpl. rewrite lookup_insert_eq.
  destruct (env_write env) as [[n e]|]; simpl.
  { unfold bind, set_files, raise, temp_file_close. simpl.
    rewrite lookup_insert_eq. unfold bind, set_files, log. simpl. discriminate. }
  unfold set_files, ret, temp_file_close. simpl.
  rewrite !lookup_insert_eq. unfold bind, set_files, log. simpl.
  intros [= <- <- <-].
  rewrite !insert_insert_eq, !delete_insert_eq, <- app_assoc.
  by repeat split.
Qed.


(** The body of the inner [try] ends in an exception: that of the first
    half when it raises, else one from the second half.  It changes only the
    global [model] and the log. *)
Lemma run_model_effect env file content p w :
  let eff := model_effect env (model w) (transcribing_notice file content) p
               (disk w !! p) in
  exists e,
    run_model env file content p w
    = (inl e, mkWorld (fst eff) (disk w) (buffers w) (calls w ++ snd eff)) /\
    (forall e0 w0, invoke_model env file content p w = (inl e0, w0) -> e = e0).
Proof.
  intros eff. pose proof (invoke_model_world env file content p w) as Hw.
  fold eff in Hw. simpl in Hw.
  unfold run_model, bind.
  destruct (invoke_model env file content p w) as [[e|v] w2]; simpl in Hw; subst w2.
  - exists e. split; [done|]. by intros e0 w0 [= <- _].
  - match goal with |- context [shape_response env v ?w1] =>
      destruct (shape_response_raises env v w1) as [e ->]
    end.
    exists e. split; [done|]. intros e0 w0 [=].
Qed.

Lemma clean_up_present p w data :
  disk w !! p = Some data ->
  clean_up p w
  = (inr tt, mkWorld (model w) (delete p (disk w)) (buffers w) (calls w ++ [Unlink p])).
Proof.
  intros Hp. unfold clean_up, bind, os_path_exists, os_unlink. simpl.
  rewrite Hp. simpl. rewrite Hp. reflexivity.
Qed.

Lemma clean_up_absent p w :
  disk w !! p = None -> clean_up p w = (inr tt, w).
Proof.
  intros Hp. unfold clean_up, bind, os_path_exists. simpl.
  rewrite Hp. rewrite bool_decide_eq_false_2; [done|].
  by intros [? ?].
Qed.

(** The outer handler: [HTTPException(500)] with the text of the exception,
    unless the notice of the error cannot be written. *)
Lemma on_exception_spec env e w :
  on_exception env e w
  = (inl match env_print env (error_notice e) with
         | Some c => console_error c
         | None => HTTPException 500 (str_exn e)
         end, w).
Proof.
  unfold on_exception, bind. rewrite print_spec.
  by destruct (env_print env (error_notice e)).
Qed.

Lemma on_exception_quiet env e w :
  console_works env ->
  on_exception env e w = (inl (HTTPException 500 (str_exn e)), w).
Proof. intros Hc. by rewrite on_exception_spec, Hc. Qed.

(** Whatever leaves the outer handler is answered with status 500. *)
Lemma on_exception_status env e w :
  status (respond (fst (on_exception env e w))) = 500.
Proof.
  rewrite on_exception_spec. simpl.
  by destruct (env_print env (error_notice e)).
Qed.

(** The three ways through the endpoint. *)

Lemma transcribe_audio_rejected env file w e :
  fst (validate_file_type file init_world) = inl e ->
  transcribe_audio env file w = on_exception env e w.
Proof.
  intros Hv. unfold transcribe_audio, try_except, bind at 1.
  rewrite validate_file_type_pure, Hv. reflexivity.
Qed.

Lemma transcribe_audio_staging_fails env file w e w1 :
  fst (validate_file_type file init_world) = inr tt ->
  save_to_temp_file env file w = (inl e, w1) ->
  transcribe_audio env file w = on_exception env e w1.
Proof.
  intros Hv Hs. unfold transcribe_audio, try_except, bind at 1.
  rewrite validate_file_type_pure, Hv. unfold bind. rewrite Hs. reflexivity.
Qed.

Lemma transcribe_audio_staged env file w content p w1 :
  fst (validate_file_type file init_world) = inr tt ->
  save_to_temp_file env file w = (inr (content, p), w1) ->
  let eff := model_effect env (model w)
               (transcribing_notice file (upload_bytes file)) p
               (Some (upload_bytes file)) in
  exists e,
    fst (run_model env file content p w1) = inl e /\
    (forall e0 w0,
       invoke_model env file content p w1 = (inl e0, w0) -> e = e0) /\
    transcribe_audio env file w
    = on_exception env e
        (mkWorld (fst eff) (disk w) (buffers w1)
           (calls w ++ [CreateTemp p; FlushTemp p (upload_bytes file)]
                    ++ snd eff ++ [Unlink p])).
Proof.
  intros Hv Hs eff.
  destruct (save_to_temp_file_inr _ _ _ _ _ _ Hs) as (-> & Hfree & _ & _ & Hw1).
  destruct (run_model_effect env file (upload_bytes file) p w1)
    as (e & Hrun & Hinv).
  assert (disk w1 !! p = Some (upload_bytes file)) as Hdisk.
  { rewrite Hw1. simpl. apply lookup_insert_eq. }
  assert (model w1 = model w) as Hm1 by (by rewrite Hw1).
  rewrite Hdisk, Hm1 in Hrun. fold eff in Hrun.
  exists e. split; [by rewrite Hrun|]. split; [done|].
  unfold transcribe_audio, try_except, bind at 1.
  rewrite validate_file_type_pure, Hv. unfold bind. rewrite Hs. simpl.
  unfold try_finally. rewrite Hrun.
  erewrite clean_up_present; simpl.
  2:{ rewrite Hw1. simpl. apply lookup_insert_eq. }
  f_equal. rewrite Hw1. simpl. f_equal.
  - rewrite delete_insert_eq. by apply delete_id.
  - by rewrite <- !app_assoc.
Qed.

(** Staging succeeds when the environment lets it. *)
Lemma save_to_temp_file_ok env file w stem :
  env_tempname env = inr stem ->
  disk w !! (stem +:+ ".webm") = None ->
  env_read env = None ->
  env_write env = None ->
  exists w1, save_to_temp_file env file w
             = (inr (upload_bytes file, stem +:+ ".webm"), w1).
Proof.
  intros Hn Hfree Hr Hw.
  unfold save_to_temp_file, bind at 1, NamedTemporaryFile, bind at 1, lift_outcome.
  rewrite Hn. unfold ret at 1. simpl. rewrite Hfree.
  unfold bind, set_files, log, ret. simpl.
  unfold with_temp_file, try_finally, bind, file_read. rewrite Hr. simpl.
  unfold temp_file_write. simpl. rewrite lookup_insert_eq, Hw. simpl.
  unfold set_files, ret, temp_file_close. simpl.
  rewrite !lookup_insert_eq. unfold bind, set_files, log. simpl. eauto.
Qed.

(** The endpoint never returns a value, and whatever leaves it is answered
    with status 500. *)
Lemma transcribe_audio_raises env file w :
  (exists e, fst (transcribe_audio env file w) = inl e) /\
  status (respond (fst (transcribe_audio env file w))) = 500.
Proof.
  destruct (fst (validate_file_type file init_world)) as [e|[]] eqn:Hv.
  { rewrite (transcribe_audio_rejected env file w e Hv).
    split; [rewrite on_exception_spec; eauto | apply on_exception_status]. }
  destruct (save_to_temp_file env file w) as [[e|[content p]] w1] eqn:Hs.
  { rewrite (transcribe_audio_staging_fails env file w e w1 Hv Hs).
    split; [rewrite on_exception_spec; eauto | apply on_exception_status]. }
  destruct (transcribe_audio_staged env file w content p w1 Hv Hs)
    as (e & _ & _ & ->).
  split; [rewrite on_exception_spec; eauto | apply on_exception_status].
Qed.


Lemma save_to_temp_file_inr_name env file w content p w1 :
  save_to_temp_file env file w = (inr (content, p), w1) ->
  exists stem, env_tempname env = inr stem /\ p = stem +:+ ".webm".
Proof.
  unfold save_to_temp_file, bind at 1, NamedTemporaryFile, bind at 1, lift_outcome.
  destruct (env_tempname env) as [e|stem]; [discriminate|].
  unfold ret at 1. simpl.
  destruct (disk w !! (stem +:+ ".webm")) as [old|] eqn:Hfree; [discriminate|].
  unfold bind, set_files, log, ret. simpl.
  unfold with_temp_file, try_finally, bind, file_read.
  destruct (env_read env) as [e|]; simpl.
  { unfold temp_file_close. simpl. rewrite lookup_insert_eq.
    unfold bind, set_files, log. simpl. discriminate. }
  unfold temp_file_write. simpl. rewrite lookup_insert_eq.
  destruct (env_write env) as [[n e]|]; simpl.
  { unfold bind, set_files, raise, temp_file_close. simpl.
    rewrite lookup_insert_eq. unfold bind, set_files, log. simpl. discriminate. }
  unfold set_files, ret, temp_file_close. simpl.
  rewrite !lookup_insert_eq. unfold bind, set_files, log. simpl.
  intros [= _ <- _]. eauto.
Qed.

(** Staging, when it fails: either nothing was created, or the new file is
    left closed on disk with the bytes that were written before the failure. *)
Lemma save_to_temp_file_inl_world env file w e w1 :
  save_to_temp_file env file w = (inl e, w1) ->
  w1 = w \/
  exists stem n,
    env_tempname env = inr stem /\
    disk w !! (stem +:+ ".webm") = None /\
    (env_read env <> None \/ env_write env <> None) /\
    w1 = mkWorld (model w)
           (<[stem +:+ ".webm" := take n (upload_bytes file)]> (disk w))
           (delete (stem +:+ ".webm") (buffers w))
           (calls w ++ [CreateTemp (stem +:+ ".webm");
                        FlushTemp (stem +:+ ".webm") (take n (upload_bytes file))]).
Proof.
  unfold save_to_temp_file, bind at 1, NamedTemporaryFile, bind at 1, lift_outcome.
  destruct (env_tempname env) as [e0|stem] eqn:Hn.
  { unfold raise. intros [= <- <-]. by left. }
  unfold ret at 1. simpl.
  destruct (disk w !! (stem +:+ ".webm")) as [old|] eqn:Hfree.
  { unfold raise. intros [= <- <-]. by left. }
  unfold bind, set_files, log, ret. simpl.
  unfold with_temp_file, try_finally, bind, file_read.
  destruct (env_read env) as [e1|] eqn:Hr; simpl.
  { unfold temp_file_close. simpl. rewrite lookup_insert_eq.
    unfold bind, set_files, log. simpl. intros [= <- <-].
    right. exists stem, 0%nat. split; [done|]. split; [done|]. split; [by left|].
    rewrite lookup_insert_eq, take_0. simpl.
    by rewrite insert_insert_eq, delete_insert_eq, <- app_assoc. }
  unfold temp_file_write. simpl. rewrite lookup_insert_eq.
  destruct (env_write env) as [[n e1]|] eqn:Hwr; simpl.
  { unfold bind, set_files, raise, temp_file_close. simpl.
    rewrite lookup_insert_eq. unfold bind, set_files, log. simpl.
    intros [= <- <-].
    right. exists stem, n. split; [done|]. split; [done|]. split; [by right|].
    rewrite !lookup_insert_eq. simpl.
    by rewrite !insert_insert_eq, !delete_insert_eq, <- app_assoc. }
  unfold set_files, ret, temp_file_close. simpl.
  rewrite !lookup_insert_eq. unfold bind, set_files, log. simpl. discriminate.
Qed.

(** Staging fails when the upload cannot be read or written: the file has
    been created by then, and it stays. *)
Lemma save_to_temp_file_fails env file w stem :
  env_tempname env = inr stem ->
  disk w !! (stem +:+ ".webm") = None ->
  env_read env <> None \/ env_write env <> None ->
  exists e n,
    save_to_temp_file env file w
    = (inl e,
       mkWorld (model w)
         (<[stem +:+ ".webm" := take n (upload_bytes file)]> (disk w))
         (delete (stem +:+ ".webm") (buffers w))
         (calls w ++ [CreateTemp (stem +:+ ".webm");
                      FlushTemp (stem +:+ ".webm") (take n (upload_bytes file))])).
Proof.
  intros Hn Hfree Hfail.
  destruct (save_to_temp_file env file w) as [[e|[content p]] w1] eqn:Hs.
  - destruct (save_to_temp_file_inl_world _ _ _ _ _ Hs)
      as [-> | (stem' & n & Hn' & _ & _ & ->)].
    + exfalso. revert Hs.
      unfold save_to_temp_file, bind at 1, NamedTemporaryFile, bind at 1,
        lift_outcome.
      rewrite Hn. unfold ret at 1. simpl. rewrite Hfree.
      unfold bind, set_files, log, ret. simpl.
      unfold with_temp_file, try_finally, bind, file_read.
      destruct (env_read env) as [e1|]; simpl.
      { unfold temp_file_close. simpl. rewrite lookup_insert_eq.
        unfold bind, set_files, log. simpl. intros [= _ Hw].
        apply (f_equal calls) in Hw. simpl in Hw.
        rewrite <- app_assoc in Hw.
        apply (f_equal length) in Hw. rewrite length_app in Hw. simpl in Hw. lia. }
      unfold temp_file_write. simpl. rewrite lookup_insert_eq.
      destruct (env_write env) as [[n e1]|]; simpl.
      { unfold bind, set_files, raise, temp_file_close. simpl.
        rewrite lookup_insert_eq. unfold bind, set_files, log. simpl.
        intros [= _ Hw].
        apply (f_equal calls) in Hw. simpl in Hw.
        rewrite <- app_assoc in Hw.
        apply (f_equal length) in Hw. rewrite length_app in Hw. simpl in Hw. lia. }
      by destruct Hfail.
    + rewrite Hn in Hn'. injection Hn' as <-. eauto.
  - destruct (save_to_temp_file_inr _ _ _ _ _ _ Hs) as (_ & _ & Hr & Hwr & _).
    by destruct Hfail.
Qed.
(** ** Media types *)

Lemma allowed_extension_In ext :
  existsb (String.eqb ext) allowed_extensions = true <-> In ext allowed_extensions.
Proof.
  rewrite existsb_exists. split.
  - intros (x & Hin & Heq). apply String.eqb_eq in Heq. by subst.
  - intros Hin. exists ext. split; [done|]. apply String.eqb_refl.
Qed.

(** C4. An upload whose declared content type contains "audio", or whose
    file name has a lower-cased extension among .webm, .wav, .mp3, .m4a and
    .ogg, passes the check of the file type, whatever its bytes are; the
    check raises only when the content type carries no marker and the file
    name has no allowed extension. *)
Theorem C4_validation_by_type_or_extension (file : UploadFile) (w : World) :
  (PyStr.contains "audio" (or_empty (content_type file)) = true \/
   (exists fn, filename file = Some fn /\
               In (PyStr.lower (snd (PosixPath.splitext fn))) allowed_extensions) ->
   validate_file_type file w = (inr tt, w)) /\
  (forall e, fst (validate_file_type file w) = inl e ->
     existsb (fun t => PyStr.contains t (or_empty (content_type file)))
       content_type_markers = false /\
     ~ (exists fn, filename file = Some fn /\
                   In (PyStr.lower (snd (PosixPath.splitext fn))) allowed_extensions)) /\
  (forall bytes,
     validate_file_type (mkUpload (filename file) (content_type file) bytes) w
     = validate_file_type file w).
Proof.
  split; [|split].
  - intros H. unfold validate_file_type.
    destruct (existsb _ content_type_markers) eqn:Hm; [reflexivity|].
    simpl negb. cbv iota.
    destruct H as [Haudio | (fn & Hfn & Hext)].
    + simpl in Hm. rewrite Haudio in Hm. discriminate.
    + rewrite Hfn. unfold bind, os_path_splitext, ret. cbv beta iota.
      apply allowed_extension_In in Hext. by rewrite Hext.
  - intros e. unfold validate_file_type.
    destruct (existsb _ content_type_markers) eqn:Hm; [discriminate|].
    simpl negb. cbv iota.
    intros He. split; [done|]. intros (fn & Hfn & Hext).
    rewrite Hfn in He. unfold bind, os_path_splitext, ret in He.
    cbv beta iota in He.
    apply allowed_extension_In in Hext. by rewrite Hext in He.
  - intros bytes. reflexivity.
Qed.

Lemma C4_validation_witness :
  validate_file_type recording_OGG init_world = (inr tt, init_world).
Proof.
  apply (proj1 (C4_validation_by_type_or_extension recording_OGG init_world)).
  right. exists "take 1.OGG". split; [reflexivity|].
  vm_compute. tauto.
Defined.

(** ** Uploads without a file name *)

Lemma transcribe_audio_without_filename env file w :
  existsb (fun t => PyStr.contains t (or_empty (content_type file)))
    content_type_markers = false ->
  filename file = None ->
  transcribe_audio env file w
  = on_exception env
      (TypeError "expected str, bytes or os.PathLike object, not NoneType") w.
Proof.
  intros Hm Hfn. apply transcribe_audio_rejected.
  unfold validate_file_type. rewrite Hm, Hfn. reflexivity.
Qed.

(** C9 (as amended).  Over HTTP no upload without a file name reaches the
    handler: a part that carries no filename is a form field, FastAPI
    answers it with status 422 and does not call the handler, so every
    upload the handler is given has a file name.  When the handler is
    called with an upload whose file name is [None] and whose content type
    contains neither "audio" nor "video/webm", [os.path.splitext] raises a
    [TypeError] and the outer handler takes it: the call is answered with
    status 500, not 400, nothing is staged, and on a console that works the
    exception is [HTTPException(500)] with the message of the [TypeError]. *)
Theorem C9_missing_filename_direct_call (env : Env) (w : World) :
  (forall part,
     part_filename part = None ->
     post_transcribe env part w = (mkResponse 422 validation_error, w)) /\
  (forall part file,
     upload_of_part part = Some file -> exists fn, filename file = Some fn) /\
  (forall file,
     existsb (fun t => PyStr.contains t (or_empty (content_type file)))
       content_type_markers = false ->
     filename file = None ->
     status (respond (fst (transcribe_audio env file w))) = 500 /\
     status (respond (fst (transcribe_audio env file w))) <> 400 /\
     snd (transcribe_audio env file w) = w /\
     (console_works env ->
      fst (transcribe_audio env file w)
      = inl (HTTPException 500
               "expected str, bytes or os.PathLike object, not NoneType"))).
Proof.
  split; [|split].
  - intros part Hfn. unfold post_transcribe, upload_of_part. by rewrite Hfn.
  - intros part file. unfold upload_of_part.
    destruct (part_filename part) as [fn|]; [|done].
    intros [= <-]. by exists fn.
  - intros file Hm Hfn.
    rewrite (transcribe_audio_without_filename env file w Hm Hfn).
    rewrite on_exception_status. split; [done|]. split; [done|].
    split; [by rewrite on_exception_spec|].
    intros Hc. by rewrite on_exception_quiet.
Qed.

Lemma C9_missing_filename_witness :
  status (respond (fst (transcribe_audio env_ok nameless init_world))) = 500.
Proof.
  apply (proj2 (proj2 (C9_missing_filename_direct_call env_ok init_world)) nameless);
    reflexivity.
Defined.

(** The claim C9 as it was stated, at a part without a file name and with
    the content type application/octet-stream: the endpoint answers 422. *)
Lemma C9_missing_filename_counterexample :
  part_filename part_without_filename = None /\
  existsb (fun t => PyStr.contains t
                      (or_empty (part_content_type part_without_filename)))
    content_type_markers = false /\
  status (fst (post_transcribe env_ok part_without_filename init_world)) = 422 /\
  status (fst (post_transcribe env_ok part_without_filename init_world)) <> 500.
Proof. repeat split; try reflexivity. discriminate. Qed.

(** C10. [GET /health] always returns, leaves the world as it was (the global
    [model] included, and nothing is loaded), and reports [model_loaded] as
    true exactly when the model has been constructed. *)
Theorem C10_health_check_reads_only (env : Env) (w : World) :
  exists entries,
    health_check env w = (inr (VDict entries), w) /\
    assoc "status" entries = Some (VStr "healthy") /\
    (assoc "model_loaded" entries = Some (VBool true) <-> exists m, model w = Some m) /\
    (assoc "model_loaded" entries = Some (VBool false) <-> model w = None) /\
    assoc "cuda_available" entries = Some (VBool (env_cuda env)).
Proof.
  unfold health_check, bind, get_model_global, ret. simpl.
  eexists. split; [reflexivity|]. simpl.
  destruct (model w) as [m|]; simpl.
  - repeat split; try done; eauto.
  - repeat split; try done. by intros [m' [=]].
Qed.

(** ** The success path *)

(** C1 (as the code behaves). When the upload passes the check of the file
    type, staging works and the model returns a result with its text, the
    endpoint still does not return the success payload: building it evaluates
    the name [segments], which is bound nowhere, and the request ends with
    status 500; on a console that works, with the message of the
    [NameError]. *)
Theorem C1_success_payload_is_never_returned
    (env : Env) (file : UploadFile) (w : World)
    (stem : string) (m : ModelHandle) (entries : list (string * value))
    (text : value) :
  fst (validate_file_type file init_world) = inr tt ->
  env_tempname env = inr stem ->
  disk w !! (stem +:+ ".webm") = None ->
  env_read env = None ->
  env_write env = None ->
  (model w = Some m \/ (model w = None /\ env_load_model env "base" = inr m)) ->
  env_transcribe env m (Some (upload_bytes file)) = inr (VDict entries) ->
  assoc "text" entries = Some text ->
  (console_works env ->
   fst (transcribe_audio env file w)
   = inl (HTTPException 500 "name 'segments' is not defined")) /\
  status (respond (fst (transcribe_audio env file w))) = 500 /\
  (forall payload, fst (transcribe_audio env file w) <> inr payload).
Proof.
  intros Hv Hn Hfree Hr Hwr Hmodel Hres Htext.
  split; [|split].
  2:{ apply transcribe_audio_raises. }
  2:{ intros payload. destruct (transcribe_audio_raises env file w) as [[e ->] _].
      discriminate. }
  intros Hc.
  destruct (save_to_temp_file_ok env file w stem Hn Hfree Hr Hwr) as [w1 Hs].
  destruct (transcribe_audio_staged env file w _ _ w1 Hv Hs)
    as (e & Hrun & _ & Hend).
  destruct (save_to_temp_file_inr _ _ _ _ _ _ Hs) as (_ & _ & _ & _ & Hw1).
  assert (fst (run_model env file (upload_bytes file) (stem +:+ ".webm") w1)
          = inl (NameError "name 'segments' is not defined")) as Hname.
  { unfold run_model, bind. rewrite invoke_model_spec by done.
    assert (disk w1 !! (stem +:+ ".webm") = Some (upload_bytes file)) as ->.
    { rewrite Hw1. simpl. apply lookup_insert_eq. }
    assert (model w1 = model w) as -> by (by rewrite Hw1).
    destruct Hmodel as [-> | [-> ->]]; rewrite Hres;
      by erewrite shape_response_of_dict. }
  rewrite Hrun in Hname. injection Hname as ->.
  by rewrite Hend, on_exception_quiet.
Qed.

Lemma C1_success_payload_witness :
  fst (transcribe_audio env_ok clip_wav init_world)
  = inl (HTTPException 500 "name 'segments' is not defined").
Proof.
  apply (C1_success_payload_is_never_returned env_ok clip_wav init_world
           "/tmp/tmpk3x9qz1a" (WhisperModel "base" 0)
           [ ("text", VStr " hello world");
             ("segments", VList [VDict [("text", VStr " hello world")]]);
             ("language", VStr "en") ]
           (VStr " hello world")).
  - reflexivity.
  - reflexivity.
  - reflexivity.
  - reflexivity.
  - reflexivity.
  - right. split; reflexivity.
  - reflexivity.
  - reflexivity.
  - intros text. reflexivity.
Defined.

(** ** Unsupported media types *)

(** C2 (as the code behaves). When the content type carries no audio marker
    and the extension of the file name is not allowed, the handler raises
    [HTTPException(400)] inside its own [try], whose [except Exception]
    catches it: the request ends with status 500, and on a console that works
    the detail is the text of the caught exception.  Nothing is staged and
    the model is not called: the world is left as it was. *)
Theorem C2_unsupported_type_is_reported_as_500
    (env : Env) (file : UploadFile) (w : World) (fn : string) :
  existsb (fun t => PyStr.contains t (or_empty (content_type file)))
    content_type_markers = false ->
  filename file = Some fn ->
  ~ In (PyStr.lower (snd (PosixPath.splitext fn))) allowed_extensions ->
  (console_works env ->
   transcribe_audio env file w
   = (inl (HTTPException 500
             (str_exn (HTTPException 400
                ("Unsupported file type: " +:+ or_empty (content_type file)
                 +:+ ". Use webm, wav, mp3, m4a, or ogg")))), w)) /\
  snd (transcribe_audio env file w) = w /\
  status (respond (fst (transcribe_audio env file w))) = 500 /\
  status (respond (fst (transcribe_audio env file w))) <> 400.
Proof.
  intros Hm Hfn Hext.
  assert (fst (validate_file_type file init_world)
          = inl (HTTPException 400
                   ("Unsupported file type: " +:+ or_empty (content_type file)
                    +:+ ". Use webm, wav, mp3, m4a, or ogg"))) as Hv.
  { unfold validate_file_type. rewrite Hm, Hfn. simpl negb. cbv iota.
    unfold bind, os_path_splitext, ret. cbv beta iota.
    destruct (existsb _ allowed_extensions) eqn:Hin; [|reflexivity].
    apply allowed_extension_In in Hin. contradiction. }
  rewrite (transcribe_audio_rejected env file w _ Hv).
  rewrite on_exception_status.
  split; [intros Hc; by rewrite on_exception_quiet|].
  split; [by rewrite on_exception_spec|]. by split.
Qed.

Lemma C2_unsupported_type_witness :
  transcribe_audio env_ok clip_txt init_world
  = (inl (HTTPException 500
       "400: Unsupported file type: text/plain. Use webm, wav, mp3, m4a, or ogg"),
     init_world).
Proof.
  apply (C2_unsupported_type_is_reported_as_500 env_ok clip_txt init_world "clip.txt").
  - reflexivity.
  - reflexivity.
  - vm_compute. intros H. repeat (destruct H as [H|H]; [discriminate H|]). exact H.
  - intros text. reflexivity.
Defined.

(** ** The temporary file *)

(** The part of the clean-up that holds: once the upload is staged, the
    temporary file is gone when the endpoint is left, whatever the model and
    the console did; the disk is what it was before the request, and the
    removal is the last thing the request does.  A request that is turned
    away by the check of the file type has staged nothing. *)
Lemma staged_file_is_removed (env : Env) (file : UploadFile) (w : World) :
  (forall e,
     fst (validate_file_type file init_world) = inl e ->
     disk (snd (transcribe_audio env file w)) = disk w) /\
  (forall content temp_path w1,
     fst (validate_file_type file init_world) = inr tt ->
     save_to_temp_file env file w = (inr (content, temp_path), w1) ->
     disk w1 !! temp_path = Some (upload_bytes file) /\
     disk (snd (transcribe_audio env file w)) !! temp_path = None /\
     disk (snd (transcribe_audio env file w)) = disk w /\
     last (calls (snd (transcribe_audio env file w))) = Some (Unlink temp_path)).
Proof.
  split.
  { intros e Hv.
    by rewrite (transcribe_audio_rejected env file w e Hv), on_exception_spec. }
  intros content temp_path w1 Hv Hs.
  destruct (transcribe_audio_staged env file w _ _ w1 Hv Hs) as (e & _ & _ & ->).
  destruct (save_to_temp_file_inr _ _ _ _ _ _ Hs) as (_ & Hfree & _ & _ & Hw1).
  rewrite on_exception_spec. cbn [snd disk calls]. repeat split; try done.
  - rewrite Hw1. simpl. apply lookup_insert_eq.
  - rewrite !app_assoc. apply last_snoc.
Qed.

(** C3 (as the code behaves).  The temporary file is created and written in
    the [with] block, before the [try] whose [finally] removes it.  When
    reading the upload or writing the file raises, that [finally] is never
    entered: the request ends with status 500 and the file, created with
    [delete=False], is still on disk, holding what was written of the
    upload.  Its last call is the flush of the [with] block, not a removal. *)
Theorem C3_failed_staging_leaves_the_file
    (env : Env) (file : UploadFile) (w : World) (stem : string) :
  fst (validate_file_type file init_world) = inr tt ->
  env_tempname env = inr stem ->
  disk w !! (stem +:+ ".webm") = None ->
  env_read env <> None \/ env_write env <> None ->
  let p := stem +:+ ".webm" in
  exists n,
    disk (snd (transcribe_audio env file w)) !! p
    = Some (take n (upload_bytes file)) /\
    last (calls (snd (transcribe_audio env file w)))
    = Some (FlushTemp p (take n (upload_bytes file))) /\
    ~ In (Unlink p) (drop (length (calls w)) (calls (snd (transcribe_audio env file w)))) /\
    status (respond (fst (transcribe_audio env file w))) = 500.
Proof.
  intros Hv Hn Hfree Hfail p.
  destruct (save_to_temp_file_fails env file w stem Hn Hfree Hfail)
    as (e & n & Hs).
  exists n.
  rewrite (transcribe_audio_staging_fails env file w e _ Hv Hs).
  rewrite on_exception_status, on_exception_spec. simpl. fold p.
  split; [apply lookup_insert_eq|]. split.
  { change [CreateTemp p; FlushTemp p (take n (upload_bytes file))]
      with ([CreateTemp p] ++ [FlushTemp p (take n (upload_bytes file))]).
    rewrite app_assoc. apply last_snoc. }
  split; [|done].
  rewrite drop_app_length. simpl. by intros [H | [H | []]].
Qed.

Lemma C3_failed_staging_witness :
  exists n,
    disk (snd (transcribe_audio env_disk_full clip_wav init_world))
      !! ("/tmp/tmpk3x9qz1a" +:+ ".webm")
    = Some (take n (upload_bytes clip_wav)) /\
    last (calls (snd (transcribe_audio env_disk_full clip_wav init_world)))
    = Some (FlushTemp ("/tmp/tmpk3x9qz1a" +:+ ".webm")
              (take n (upload_bytes clip_wav))) /\
    ~ In (Unlink ("/tmp/tmpk3x9qz1a" +:+ ".webm"))
         (drop (length (calls init_world))
            (calls (snd (transcribe_audio env_disk_full clip_wav init_world)))) /\
    status (respond (fst (transcribe_audio env_disk_full clip_wav init_world))) = 500.
Proof.
  apply (C3_failed_staging_leaves_the_file env_disk_full clip_wav init_world
           "/tmp/tmpk3x9qz1a").
  - reflexivity.
  - reflexivity.
  - reflexivity.
  - right. discriminate.
Defined.

(** The same at a disk that is full after three bytes. *)
Lemma staging_failure_leaves_file :
  disk (snd (transcribe_audio env_disk_full clip_wav init_world))
    !! "/tmp/tmpk3x9qz1a.webm" = Some [x52; x49; x46] /\
  fst (transcribe_audio env_disk_full clip_wav init_world)
  = inl (HTTPException 500 "[Errno 28] No space left on device").
Proof. split; vm_compute; reflexivity. Qed.

(** ** The model is loaded once *)

Lemma count_app p (a b : list call) :
  count p (a ++ b) = (count p a + count p b)%nat.
Proof. unfold count. by rewrite filter_app, length_app. Qed.


Lemma get_model_calls_loaded envs w m :
  model w = Some m ->
  get_model_calls envs w = (replicate (length envs) (inr (Some m)), w).
Proof.
  intros Hm. induction envs as [|env envs IH]; [done|].
  simpl. rewrite (get_model_loaded env w m Hm), IH. reflexivity.
Qed.

Lemma get_model_calls_load_count envs w :
  (count is_loaded (calls (snd (get_model_calls envs w)))
   <= count is_loaded (calls w)
      + match model w with Some _ => 0 | None => 1 end)%nat.
Proof.
  revert w. induction envs as [|env envs IH]; intros w.
  { simpl. lia. }
  simpl. rewrite get_model_spec. destruct (model w) as [m|] eqn:Hm.
  - specialize (IH w). rewrite Hm in IH.
    by destruct (get_model_calls envs w).
  - destruct (env_print env loading_notice).
    { specialize (IH w). rewrite Hm in IH. by destruct (get_model_calls envs w). }
    destruct (env_load_model env "base") as [e|m] eqn:Hl.
    + specialize (IH (add_calls w [LoadModel "base" false])).
      simpl in IH. rewrite Hm, count_app in IH.
      destruct (get_model_calls envs _). simpl in *.
      change (count is_loaded [LoadModel "base" false]) with 0%nat in IH. lia.
    + simpl.
      assert (forall r,
        (count is_loaded
           (calls (snd (let (rs, w'') :=
                          get_model_calls envs
                            (mkWorld (Some m) (disk w) (buffers w)
                               (calls w ++ [LoadModel "base" true])) in
                        (r :: rs, w''))))
         <= count is_loaded (calls w) + 1)%nat) as Hboth.
      { intros r.
        match goal with |- context [get_model_calls envs ?w1] =>
          specialize (IH w1); destruct (get_model_calls envs w1)
        end.
        simpl in *. rewrite count_app in IH.
        change (count is_loaded [LoadModel "base" true]) with 1%nat in IH. lia. }
      destruct (env_print env loaded_notice); apply Hboth.
Qed.

(** C5. [get_model] constructs the engine at most once.  Once the global
    [model] is set, every call returns that handle and does nothing else;
    while it is unset a call loads the model, and keeps it when the load
    succeeds; when the load fails the global stays unset, nothing of the
    failure is kept, and the next call loads again (the notices of
    [get_model] being written).  However many calls a process makes, and
    whatever the console does, at most one load succeeds. *)
Theorem C5_model_is_constructed_once :
  (forall envs w m,
     model w = Some m ->
     get_model_calls envs w = (replicate (length envs) (inr (Some m)), w)) /\
  (forall env w m,
     console_works env ->
     model w = None -> env_load_model env "base" = inr m ->
     get_model env w
     = (inr (Some m),
        mkWorld (Some m) (disk w) (buffers w) (calls w ++ [LoadModel "base" true]))) /\
  (forall env w e,
     console_works env ->
     model w = None -> env_load_model env "base" = inl e ->
     let w' := add_calls w [LoadModel "base" false] in
     get_model env w = (inl e, w') /\
     model w' = None /\
     forall env',
       console_works env' ->
       fst (get_model env' w')
       = match env_load_model env' "base" with
         | inl e' => inl e'
         | inr m => inr (Some m)
         end /\
       count is_load_attempt (calls (snd (get_model env' w')))
       = S (count is_load_attempt (calls w'))) /\
  (forall envs,
     (count is_loaded (calls (snd (get_model_calls envs init_world))) <= 1)%nat).
Proof.
  split; [|split; [|split]].
  - apply get_model_calls_loaded.
  - apply get_model_load_ok.
  - intros env w e Hc Hm Hl w'. split; [by apply get_model_load_fails|].
    split; [done|]. intros env' Hc'.
    assert (model w' = None) as Hm' by done.
    destruct (env_load_model env' "base") as [e'|m] eqn:Hl'.
    + rewrite (get_model_load_fails env' w' e' Hc' Hm' Hl'). simpl.
      split; [done|]. by rewrite !count_app, Nat.add_1_r.
    + rewrite (get_model_load_ok env' w' m Hc' Hm' Hl'). simpl.
      split; [done|]. by rewrite !count_app, Nat.add_1_r.
  - intros envs. apply (get_model_calls_load_count envs init_world).
Qed.

Lemma C5_model_is_constructed_once_witness :
  get_model_calls [env_no_model; env_ok; env_no_model; env_ok] init_world
  = ([ inl (LibraryError "RuntimeError" "checksum does not match");
       inr (Some (WhisperModel "base" 0));
       inr (Some (WhisperModel "base" 0));
       inr (Some (WhisperModel "base" 0)) ],
     mkWorld (Some (WhisperModel "base" 0)) ∅ ∅
       [LoadModel "base" false; LoadModel "base" true]) /\
  (count is_loaded
     (calls (snd (get_model_calls [env_no_model; env_ok; env_no_model; env_ok]
                    init_world))) <= 1)%nat.
Proof.
  split.
  - vm_compute. reflexivity.
  - apply (proj2 (proj2 (proj2 C5_model_is_constructed_once))).
Defined.

(** ** Exceptions at the endpoint *)






(** ** Empty uploads and the order of staging and inference *)

(** The request of an upload that is staged, with the model at hand, on a
    console that works. *)
Lemma transcribe_audio_with_model env file w stem m :
  console_works env ->
  fst (validate_file_type file init_world) = inr tt ->
  env_tempname env = inr stem ->
  disk w !! (stem +:+ ".webm") = None ->
  env_read env = None ->
  env_write env = None ->
  (model w = Some m \/ (model w = None /\ env_load_model env "base" = inr m)) ->
  let p := stem +:+ ".webm" in
  exists e loads,
    transcribe_audio env file w
    = (inl (HTTPException 500 (str_exn e)),
       mkWorld (Some m) (disk w) (delete p (buffers w))
         (calls w ++ [CreateTemp p; FlushTemp p (upload_bytes file)]
                  ++ loads ++ [Transcribe m p (Some (upload_bytes file))]
                  ++ [Unlink p])) /\
    (forall e0, env_transcribe env m (Some (upload_bytes file)) = inl e0 -> e = e0).
Proof.
  intros Hc Hv Hn Hfree Hr Hwr Hmodel p.
  destruct (save_to_temp_file_ok env file w stem Hn Hfree Hr Hwr) as [w1 Hs].
  destruct (transcribe_audio_staged env file w _ _ w1 Hv Hs)
    as (e & _ & Hinv & Hend).
  destruct (save_to_temp_file_inr _ _ _ _ _ _ Hs) as (_ & _ & _ & _ & Hw1).
  fold p in Hs, Hinv, Hend, Hw1.
  assert (disk w1 !! p = Some (upload_bytes file)) as Hdisk.
  { rewrite Hw1. simpl. apply lookup_insert_eq. }
  assert (model w1 = model w) as Hm1 by (by rewrite Hw1).
  assert (buffers w1 = delete p (buffers w)) as Hb1 by (by rewrite Hw1).
  rewrite (invoke_model_spec env file (upload_bytes file) p w1 Hc) in Hinv.
  rewrite Hdisk, Hm1 in Hinv.
  rewrite on_exception_quiet, model_effect_quiet, Hb1 in Hend by done.
  exists e.
  destruct Hmodel as [Hm | [Hm Hl]]; rewrite Hm in Hinv, Hend.
  - exists []. split; [exact Hend|].
    intros e0 He0. rewrite He0 in Hinv. by eapply Hinv.
  - exists [LoadModel "base" true]. rewrite Hl in Hinv, Hend.
    split; [exact Hend|].
    intros e0 He0. rewrite He0 in Hinv. by eapply Hinv.
Qed.

(** C7. An empty upload is not turned away: when its media type is accepted
    (the check passes for these metadata), the empty byte sequence is written
    to the temporary file and the model is run on that empty file; a failure
    of the model leaves the endpoint as status 500 with the message of the
    failure, and status 500 is the outcome in any case.  (The environment
    is one in which staging works, the model is at hand and the console
    takes the notices.) *)
Theorem C7_empty_upload_reaches_the_model
    (env : Env) (w : World) (fname ctype : option string) (bytes : list byte)
    (stem : string) (m : ModelHandle) :
  console_works env ->
  fst (validate_file_type (mkUpload fname ctype bytes) init_world) = inr tt ->
  env_tempname env = inr stem ->
  disk w !! (stem +:+ ".webm") = None ->
  env_read env = None ->
  env_write env = None ->
  (model w = Some m \/ (model w = None /\ env_load_model env "base" = inr m)) ->
  let file := mkUpload fname ctype [] in
  let p := stem +:+ ".webm" in
  fst (validate_file_type file init_world) = inr tt /\
  (exists loads,
     calls (snd (transcribe_audio env file w))
     = calls w ++ [CreateTemp p; FlushTemp p []] ++ loads
               ++ [Transcribe m p (Some [])] ++ [Unlink p]) /\
  (forall e, env_transcribe env m (Some []) = inl e ->
     fst (transcribe_audio env file w) = inl (HTTPException 500 (str_exn e))) /\
  status (respond (fst (transcribe_audio env file w))) = 500.
Proof.
  intros Hc Hv Hn Hfree Hr Hwr Hmodel file p.
  assert (fst (validate_file_type file init_world) = inr tt) as Hv'.
  { rewrite <- Hv. reflexivity. }
  destruct (transcribe_audio_with_model env file w stem m Hc Hv' Hn Hfree Hr Hwr
              Hmodel) as (e & loads & Hend & He).
  fold p in Hend. simpl in He. rewrite Hend. simpl.
  split; [exact Hv'|]. split; [by exists loads|]. split; [|done].
  intros e0 He0. by rewrite (He e0 He0).
Qed.

Lemma C7_empty_upload_witness :
  fst (transcribe_audio env_ok empty_webm init_world)
  = inl (HTTPException 500 "cannot reshape tensor of 0 elements").
Proof.
  assert (console_works env_ok) as Hc by (intros text; reflexivity).
  assert (fst (validate_file_type (mkUpload (Some "blob") (Some "audio/webm") speech)
                 init_world) = inr tt) as Hv by reflexivity.
  assert (env_tempname env_ok = inr "/tmp/tmpk3x9qz1a") as Hn by reflexivity.
  assert (disk init_world !! ("/tmp/tmpk3x9qz1a" +:+ ".webm") = None) as Hfree
    by reflexivity.
  assert (env_read env_ok = None) as Hr by reflexivity.
  assert (env_write env_ok = None) as Hwr by reflexivity.
  assert (model init_world = Some (WhisperModel "base" 0) \/
          (model init_world = None /\
           env_load_model env_ok "base" = inr (WhisperModel "base" 0))) as Hmodel
    by (right; split; reflexivity).
  destruct (C7_empty_upload_reaches_the_model env_ok init_world
              (Some "blob") (Some "audio/webm") speech
              "/tmp/tmpk3x9qz1a" (WhisperModel "base" 0)
              Hc Hv Hn Hfree Hr Hwr Hmodel) as (_ & _ & Hfail & _).
  apply (Hfail RuntimeError_empty_audio). reflexivity.
Defined.


(** * Further properties of the handlers *)

(** ** The effect of one request on the world *)

(** One request, in full: it is turned away or fails before anything is
    created; or staging fails and leaves the file; or the upload is staged,
    the inner [try] is run, and the file is removed. *)
Lemma transcribe_audio_effect env file w :
  snd (transcribe_audio env file w) = w \/
  (exists stem n,
     env_tempname env = inr stem /\
     disk w !! (stem +:+ ".webm") = None /\
     (env_read env <> None \/ env_write env <> None) /\
     snd (transcribe_audio env file w)
     = mkWorld (model w)
         (<[stem +:+ ".webm" := take n (upload_bytes file)]> (disk w))
         (delete (stem +:+ ".webm") (buffers w))
         (calls w ++ [CreateTemp (stem +:+ ".webm");
                      FlushTemp (stem +:+ ".webm") (take n (upload_bytes file))])) \/
  (exists stem,
     env_tempname env = inr stem /\
     disk w !! (stem +:+ ".webm") = None /\
     env_read env = None /\ env_write env = None /\
     let p := stem +:+ ".webm" in
     let eff := model_effect env (model w)
                  (transcribing_notice file (upload_bytes file)) p
                  (Some (upload_bytes file)) in
     snd (transcribe_audio env file w)
     = mkWorld (fst eff) (disk w) (delete p (buffers w))
         (calls w ++ [CreateTemp p; FlushTemp p (upload_bytes file)]
                  ++ snd eff ++ [Unlink p])).
Proof.
  destruct (fst (validate_file_type file init_world)) as [e|[]] eqn:Hv.
  { left. by rewrite (transcribe_audio_rejected env file w e Hv), on_exception_spec. }
  destruct (save_to_temp_file env file w) as [[e|[content p]] w1] eqn:Hs.
  { rewrite (transcribe_audio_staging_fails env file w e w1 Hv Hs),
      on_exception_spec. simpl.
    destruct (save_to_temp_file_inl_world _ _ _ _ _ Hs)
      as [-> | (stem & n & Hn & Hfree & Hfail & ->)]; [by left|].
    right. left. by exists stem, n. }
  right. right.
  destruct (save_to_temp_file_inr_name _ _ _ _ _ _ Hs) as (stem & Hn & ->).
  destruct (save_to_temp_file_inr _ _ _ _ _ _ Hs) as (_ & Hfree & Hr & Hwr & Hw1).
  exists stem. repeat (split; [done|]). intros p eff.
  destruct (transcribe_audio_staged env file w _ _ w1 Hv Hs) as (e & _ & _ & ->).
  rewrite on_exception_spec. cbn [snd]. fold p. fold eff. by rewrite Hw1.
Qed.

(** ** Start-up and the model *)

(** The start-up event, notice by notice. *)
Lemma startup_event_spec env w :
  startup_event env w =
  match env_print env "🎤 ConRad Voice Service Starting..." with
  | Some c => (inl (console_error c), w)
  | None =>
  match env_print env "   Port: 5001" with
  | Some c => (inl (console_error c), w)
  | None =>
  match env_print env "   Model: FasterWhisper large-v3" with
  | Some c => (inl (console_error c), w)
  | None =>
      match get_model env w with
      | (inr _, w1) => (inr tt, w1)
      | (inl e, w1) =>
          match env_print env ("⚠️ Model pre-loading failed: " +:+ str_exn e) with
          | Some c => (inl (console_error c), w1)
          | None =>
              match env_print env "   Model will be loaded on first request" with
              | Some c => (inl (console_error c), w1)
              | None => (inr tt, w1)
              end
          end
      end
  end end end.
Proof.
  unfold startup_event, bind at 1. rewrite print_spec.
  destruct (env_print env _); [done|].
  unfold bind at 1. rewrite print_spec.
  destruct (env_print env "   Port: 5001"); [done|].
  unfold bind at 1. rewrite print_spec.
  destruct (env_print env "   Model: FasterWhisper large-v3"); [done|].
  unfold try_except, bind at 1.
  destruct (get_model env w) as [[e|r] w1]; [|done].
  unfold bind. rewrite print_spec.
  destruct (env_print env _); [done|].
  rewrite print_spec. by destruct (env_print env _).
Qed.

(** The start-up event on a console that works. *)
Lemma startup_event_world env w :
  console_works env ->
  startup_event env w
  = (inr tt,
     match model w with
     | Some _ => w
     | None =>
         match env_load_model env "base" with
         | inr m => mkWorld (Some m) (disk w) (buffers w)
                      (calls w ++ [LoadModel "base" true])
         | inl _ => mkWorld None (disk w) (buffers w)
                      (calls w ++ [LoadModel "base" false])
         end
     end).
Proof.
  intros Hc.
  assert (forall text w0, print env text w0 = (inr tt, w0)) as Hp.
  { intros text w0. by rewrite print_spec, Hc. }
  unfold startup_event, bind. rewrite !Hp.
  unfold try_except. rewrite get_model_spec, !Hc.
  destruct (model w) as [m|] eqn:Hm; [done|].
  destruct (env_load_model env "base") as [e|m]; cbv zeta; [|done].
  rewrite !Hp. unfold add_calls. by rewrite Hm.
Qed.

(** The start-up event on any console: nothing but the console can make it
    raise, and what it leaves behind is one of three worlds. *)
Lemma startup_event_any env w :
  (forall e, fst (startup_event env w) = inl e ->
     exists text c, env_print env text = Some c /\ e = console_error c) /\
  (snd (startup_event env w) = w \/
   (model w = None /\ (exists e, env_load_model env "base" = inl e) /\
    snd (startup_event env w) = add_calls w [LoadModel "base" false]) \/
   (exists m, model w = None /\ env_load_model env "base" = inr m /\
              snd (startup_event env w)
              = mkWorld (Some m) (disk w) (buffers w)
                  (calls w ++ [LoadModel "base" true]))).
Proof.
  rewrite startup_event_spec.
  destruct (env_print env _) as [c|] eqn:H1.
  { split; [intros e [= <-]; eauto | by left]. }
  destruct (env_print env "   Port: 5001") as [c|] eqn:H2.
  { split; [intros e [= <-]; eauto | by left]. }
  destruct (env_print env "   Model: FasterWhisper large-v3") as [c|] eqn:H3.
  { split; [intros e [= <-]; eauto | by left]. }
  assert (forall (e0 : exn) (w1 : World),
    let r : (exn + unit) * World :=
             match env_print env ("⚠️ Model pre-loading failed: " +:+ str_exn e0) with
             | Some c => (inl (console_error c), w1)
             | None =>
                 match env_print env "   Model will be loaded on first request" with
                 | Some c => (inl (console_error c), w1)
                 | None => (inr tt, w1)
                 end
             end in
    (forall e, fst r = inl e ->
       exists text c, env_print env text = Some c /\ e = console_error c) /\
    snd r = w1) as Hh.
  { intros e0 w1.
    destruct (env_print env ("⚠️ Model pre-loading failed: " +:+ str_exn e0))
      as [c|] eqn:H4; simpl.
    { split; [intros e [= <-]; eauto | done]. }
    destruct (env_print env "   Model will be loaded on first request")
      as [c|] eqn:H5; simpl.
    { split; [intros e [= <-]; eauto | done]. }
    split; [intros e [=] | done]. }
  rewrite get_model_spec.
  destruct (model w) as [m|] eqn:Hm.
  { split; [intros e [=] | by left]. }
  destruct (env_print env loading_notice) as [c|] eqn:H6.
  { destruct (Hh (console_error c) w) as [He Hw]. split; [exact He | by left]. }
  destruct (env_load_model env "base") as [e0|m] eqn:Hl.
  { destruct (Hh e0 (add_calls w [LoadModel "base" false])) as [He Hw].
    split; [exact He|]. right. left. eauto. }
  cbv zeta.
  destruct (env_print env loaded_notice) as [c|] eqn:H7.
  { match goal with |- context [mkWorld ?a ?b ?c0 ?d] =>
      destruct (Hh (console_error c) (mkWorld a b c0 d)) as [He Hw]
    end.
    split; [exact He|]. right. right. exists m. eauto. }
  split; [intros e [=]|]. right. right. exists m. eauto.
Qed.

(** X1. Nothing but the console can stop the start-up: the start-up event
    raises only what a [print] raised, never the failure of loading the
    model, which is noted and left for the first request.  On a console that
    works it returns, and afterwards the global holds a model exactly when
    it held it before or the load succeeded.  The files are not touched, and
    with the model already there the world is left as it was. *)
Theorem X1_only_the_console_stops_startup (env : Env) (w : World) :
  (forall e, fst (startup_event env w) = inl e ->
     exists text c, env_print env text = Some c /\ e = console_error c) /\
  (console_works env ->
   fst (startup_event env w) = inr tt /\
   forall m,
     model (snd (startup_event env w)) = Some m <->
     model w = Some m \/ (model w = None /\ env_load_model env "base" = inr m)) /\
  disk (snd (startup_event env w)) = disk w /\
  buffers (snd (startup_event env w)) = buffers w /\
  (forall m, model w = Some m -> snd (startup_event env w) = w).
Proof.
  destruct (startup_event_any env w) as [Hraise Hworld].
  split; [exact Hraise|]. split.
  { intros Hc. rewrite startup_event_world by done. simpl. split; [done|].
    intros m. destruct (model w) as [m0|] eqn:Hm.
    - split; [intros H; left; by rewrite <- H|].
      intros [H | [H _]]; [by rewrite <- H | done].
    - destruct (env_load_model env "base") as [e|m0]; simpl.
      + split; [done|]. intros [H | [_ H]]; done.
      + split; [intros [= ->]; by right|]. by intros [H | [_ [= ->]]]. }
  destruct Hworld as [-> | [(Hm & _ & ->) | (m0 & Hm & _ & ->)]]; simpl;
    repeat split; try done; intros m; rewrite Hm; done.
Qed.

(** X2. Right after a start-up on a console that works, [/health] reports
    [model_loaded] false exactly when the load at start-up failed, and true
    exactly when it succeeded. *)
Theorem X2_health_after_startup (env0 env : Env) :
  console_works env0 ->
  exists entries,
    health_check env (snd (startup_event env0 init_world))
    = (inr (VDict entries), snd (startup_event env0 init_world)) /\
    (assoc "model_loaded" entries = Some (VBool false)
     <-> exists e, env_load_model env0 "base" = inl e) /\
    (assoc "model_loaded" entries = Some (VBool true)
     <-> exists m, env_load_model env0 "base" = inr m).
Proof.
  intros Hc. rewrite startup_event_world by done. simpl.
  unfold health_check, bind, get_model_global, ret.
  destruct (env_load_model env0 "base") as [e|m]; simpl;
    (eexists; split; [reflexivity|]); simpl.
  - split; split; try done; eauto. by intros [m [=]].
  - split; split; try done; eauto. by intros [e [=]].
Qed.

Lemma X2_health_after_startup_witness :
  exists entries,
    health_check env_ok (snd (startup_event env_no_model init_world))
    = (inr (VDict entries), snd (startup_event env_no_model init_world)) /\
    (assoc "model_loaded" entries = Some (VBool false)
     <-> exists e, env_load_model env_no_model "base" = inl e) /\
    (assoc "model_loaded" entries = Some (VBool true)
     <-> exists m, env_load_model env_no_model "base" = inr m).
Proof.
  apply (X2_health_after_startup env_no_model env_ok).
  intros text. reflexivity.
Defined.

(** X3. What [get_model] returns agrees with the global afterwards: it
    returns a handle, never [None], and the global holds that handle.  When
    it raises, the global was unset before, and the exception is that of
    [whisper.load_model], with the global still unset, or one raised by the
    console for a notice; on a console that works it is that of
    [whisper.load_model].  The files are as before. *)
Theorem X3_get_model_agrees_with_global (env : Env) (w : World) :
  match fst (get_model env w) with
  | inr r => r = model (snd (get_model env w)) /\ r <> None
  | inl e =>
      model w = None /\
      ((env_load_model env "base" = inl e /\ model (snd (get_model env w)) = None) \/
       (exists text c, env_print env text = Some c /\ e = console_error c)) /\
      (console_works env ->
       env_load_model env "base" = inl e /\ model (snd (get_model env w)) = None)
  end /\
  disk (snd (get_model env w)) = disk w /\
  buffers (snd (get_model env w)) = buffers w.
Proof.
  rewrite get_model_spec.
  destruct (model w) as [m|] eqn:Hm; [simpl; by rewrite Hm|].
  destruct (env_print env loading_notice) as [c|] eqn:H1; simpl.
  { split; [|done]. split; [done|]. split; [right; eauto|].
    intros Hc. by rewrite Hc in H1. }
  destruct (env_load_model env "base") as [e|m] eqn:Hl; simpl.
  { rewrite Hm. split; [|done]. split; [done|]. split; [by left|done]. }
  destruct (env_print env loaded_notice) as [c|] eqn:H2; simpl.
  { split; [|done]. split; [done|]. split; [right; eauto|].
    intros Hc. by rewrite Hc in H2. }
  by repeat split.
Qed.

(** ** One request and the model *)

(** X4. A request served with the model loaded keeps that model: the global
    is unchanged, [whisper.load_model] is not called, and if the model is
    run it is that one.  This holds on every path through the endpoint. *)
Theorem X4_loaded_model_is_kept
    (env : Env) (file : UploadFile) (w : World) (m : ModelHandle) :
  model w = Some m ->
  model (snd (transcribe_audio env file w)) = Some m /\
  exists cs,
    calls (snd (transcribe_audio env file w)) = calls w ++ cs /\
    count is_load_attempt cs = 0%nat /\
    Forall (uses_model m) cs.
Proof.
  intros Hm.
  destruct (transcribe_audio_effect env file w)
    as [-> | [(stem & n & _ & _ & _ & ->) | (stem & _ & _ & _ & _ & ->)]].
  - split; [done|]. exists []. rewrite app_nil_r. by repeat split.
  - simpl. split; [done|]. eexists. split; [reflexivity|].
    split; [reflexivity|]. by repeat constructor.
  - unfold model_effect. rewrite Hm. cbn [fst snd model calls]. split; [done|].
    eexists. split; [reflexivity|].
    destruct (env_print env _); simpl;
      (split; [reflexivity|]); by repeat constructor.
Qed.

Lemma X4_loaded_model_witness :
  model (snd (transcribe_audio env_no_model clip_wav
                (mkWorld (Some (WhisperModel "base" 0)) ∅ ∅ [])))
  = Some (WhisperModel "base" 0).
Proof.
  apply (X4_loaded_model_is_kept env_no_model clip_wav
           (mkWorld (Some (WhisperModel "base" 0)) ∅ ∅ [])
           (WhisperModel "base" 0)).
  reflexivity.
Defined.

(** X5. A request that gets as far as the model with the global unset loads
    the model and leaves it loaded, although the request itself ends with
    status 500: [/health] then reports [model_loaded] true and the next
    request does not load again.  (The first request is served while
    staging, loading and the console work.) *)
Theorem X5_first_request_loads_the_model
    (env : Env) (file : UploadFile) (w : World) (stem : string) (m : ModelHandle) :
  console_works env ->
  fst (validate_file_type file init_world) = inr tt ->
  env_tempname env = inr stem ->
  disk w !! (stem +:+ ".webm") = None ->
  env_read env = None ->
  env_write env = None ->
  model w = None ->
  env_load_model env "base" = inr m ->
  let w' := snd (transcribe_audio env file w) in
  status (respond (fst (transcribe_audio env file w))) = 500 /\
  model w' = Some m /\
  count is_loaded (calls w') = S (count is_loaded (calls w)) /\
  (forall env1,
     fst (health_check env1 w')
     = inr (VDict [ ("status", VStr "healthy");
                    ("model_loaded", VBool true);
                    ("cuda_available", VBool (env_cuda env1)) ])) /\
  (forall env2 file2,
     model (snd (transcribe_audio env2 file2 w')) = Some m /\
     count is_loaded (calls (snd (transcribe_audio env2 file2 w')))
     = count is_loaded (calls w')).
Proof.
  intros Hc Hv Hn Hfree Hr Hwr Hm Hl w'.
  destruct (transcribe_audio_with_model env file w stem m Hc Hv Hn Hfree Hr Hwr
              (or_intror (conj Hm Hl))) as (e & loads & Hend & _).
  destruct (transcribe_audio_effect env file w)
    as [Heff | [(stem' & n & _ & _ & Hfail & _) | (stem' & Hn' & _ & _ & _ & Heff)]].
  - exfalso. rewrite Hend in Heff. simpl in Heff.
    apply (f_equal model) in Heff. simpl in Heff. congruence.
  - exfalso. destruct Hfail as [Hfail | Hfail]; by apply Hfail.
  - rewrite Hn in Hn'. injection Hn' as <-.
    cbv zeta in Heff.
    rewrite model_effect_quiet in Heff by done. rewrite Hm, Hl in Heff.
    simpl in Heff.
    assert (model w' = Some m) as Hm' by (unfold w'; by rewrite Heff).
    split; [by rewrite Hend|]. split; [exact Hm'|]. split.
    { unfold w'. rewrite Heff. simpl. rewrite count_app.
      change (count is_loaded _) with 1%nat at 2. lia. }
    split.
    { intros env1. unfold health_check, bind, get_model_global, ret. simpl.
      by rewrite Hm'. }
    intros env2 file2.
    destruct (transcribe_audio_effect env2 file2 w')
      as [-> | [(s2 & n & _ & _ & _ & ->) | (s2 & _ & _ & _ & _ & ->)]].
    + done.
    + simpl. split; [done|]. rewrite count_app.
      change (count is_loaded [_; _]) with 0%nat. lia.
    + unfold model_effect. rewrite Hm'. cbn [fst snd model calls].
      split; [done|]. rewrite !count_app.
      change (count is_loaded [_; _]) with 0%nat.
      change (count is_loaded [Unlink _]) with 0%nat.
      destruct (env_print env2 _).
      * change (count is_loaded []) with 0%nat. lia.
      * change (count is_loaded [_]) with 0%nat. lia.
Qed.

Lemma X5_first_request_witness :
  model (snd (transcribe_audio env_ok clip_wav init_world))
  = Some (WhisperModel "base" 0).
Proof.
  apply (X5_first_request_loads_the_model env_ok clip_wav init_world
           "/tmp/tmpk3x9qz1a" (WhisperModel "base" 0));
    try reflexivity.
  intros text. reflexivity.
Defined.

(** ** One request and the files *)



(** X7. The temporary file is closed on every path: a request leaves no
    write buffer behind that was not there before, also when staging fails
    in the middle. *)
Theorem X7_temporary_file_is_always_closed
    (env : Env) (file : UploadFile) (w : World) (p : string) :
  buffers w !! p = None ->
  buffers (snd (transcribe_audio env file w)) !! p = None.
Proof.
  intros Hp.
  destruct (transcribe_audio_effect env file w)
    as [-> | [(stem & n & _ & _ & _ & ->) | (stem & _ & _ & _ & _ & ->)]];
    simpl; [done| |]; apply lookup_delete_None; by right.
Qed.

Lemma X7_temporary_file_witness :
  buffers (snd (transcribe_audio env_disk_full clip_wav init_world))
    !! "/tmp/tmpk3x9qz1a.webm" = None.
Proof.
  apply (X7_temporary_file_is_always_closed env_disk_full clip_wav init_world).
  reflexivity.
Defined.

(** ** The process as a whole *)

Lemma count_zero_Forall p (cs : list call) :
  count p cs = 0%nat -> Forall (fun c => p c = false) cs.
Proof.
  unfold count. induction cs as [|c cs IH]; [constructor|].
  destruct (p c) eqn:Hc.
  - rewrite filter_cons_True by done. discriminate.
  - rewrite filter_cons_False by (by rewrite Hc). intros H.
    constructor; [done|by apply IH].
Qed.

Lemma no_transcribe_uses_model m (cs : list call) :
  count is_transcribe cs = 0%nat -> Forall (uses_model m) cs.
Proof.
  intros H. apply count_zero_Forall in H.
  eapply Forall_impl; [exact H|]. by intros [] Hc.
Qed.

Lemma one_model_init : one_model init_world.
Proof. by split. Qed.

Lemma one_model_load_fails w :
  one_model w -> model w = None -> one_model (add_calls w [LoadModel "base" false]).
Proof.
  unfold one_model. simpl. intros Hinv Hm. rewrite Hm in *.
  destruct Hinv as [Hl Ht]. by rewrite !count_app, Hl, Ht.
Qed.

Lemma one_model_load_ok w m cs :
  one_model w -> model w = None ->
  count is_loaded cs = 0%nat -> Forall (uses_model m) cs ->
  one_model (mkWorld (Some m) (disk w) (buffers w)
               (calls w ++ LoadModel "base" true :: cs)).
Proof.
  unfold one_model. simpl. intros Hinv Hm Hcs Hall. rewrite Hm in *.
  destruct Hinv as [Hl Ht].
  change (LoadModel "base" true :: cs) with ([LoadModel "base" true] ++ cs).
  rewrite !count_app, Hl, Hcs. split; [done|].
  apply Forall_app. split; [by apply no_transcribe_uses_model|].
  apply Forall_app. split; [by repeat constructor|done].
Qed.

Lemma one_model_startup_event env w :
  one_model w -> one_model (snd (startup_event env w)).
Proof.
  intros Hinv.
  destruct (startup_event_any env w)
    as [_ [-> | [(Hm & _ & ->) | (m & Hm & _ & ->)]]]; [done| |].
  - by apply one_model_load_fails.
  - change [LoadModel "base" true] with (LoadModel "base" true :: []).
    by apply one_model_load_ok.
Qed.

Lemma one_model_more_calls w d b cs :
  one_model w ->
  count is_loaded cs = 0%nat ->
  (forall m, model w = Some m -> Forall (uses_model m) cs) ->
  (model w = None -> count is_transcribe cs = 0%nat) ->
  one_model (mkWorld (model w) d b (calls w ++ cs)).
Proof.
  unfold one_model. simpl. intros Hinv Hcs Hsome Hnone.
  destruct (model w) as [m|]; destruct Hinv as [Hl Hx]; rewrite !count_app, Hl, Hcs.
  - split; [done|]. apply Forall_app. split; [done|]. by apply Hsome.
  - by rewrite Hx, Hnone.
Qed.

Lemma one_model_transcribe_audio env file w :
  one_model w -> one_model (snd (transcribe_audio env file w)).
Proof.
  intros Hinv.
  destruct (transcribe_audio_effect env file w)
    as [-> | [(stem & n & _ & _ & _ & ->) | (stem & _ & _ & _ & _ & ->)]];
    [done| |].
  - apply one_model_more_calls; [done|reflexivity| |reflexivity].
    intros m _. by repeat constructor.
  - cbv zeta. unfold model_effect.
    set (p := stem +:+ ".webm").
    destruct (model w) as [m|] eqn:Hm.
    + cbn [fst snd]. rewrite <- Hm.
      apply one_model_more_calls; [done| | |].
      * by destruct (env_print env _).
      * intros m' Hm'. rewrite Hm in Hm'. injection Hm' as <-.
        destruct (env_print env _); by repeat constructor.
      * intros Hm'. congruence.
    + destruct (env_print env loading_notice).
      { cbn [fst snd]. rewrite <- Hm.
        apply one_model_more_calls; try done. intros m' Hm'. congruence. }
      destruct (env_load_model env "base") as [e|m].
      { cbn [fst snd]. rewrite <- Hm.
        apply one_model_more_calls; try done. intros m' Hm'. congruence. }
      cbn [fst snd].
      unfold one_model in *. rewrite Hm in Hinv. destruct Hinv as [Hl Hx].
      cbn [model calls].
      rewrite !count_app, Hl.
      split.
      { destruct (env_print env loaded_notice); [reflexivity|].
        by destruct (env_print env _). }
      apply Forall_app. split; [by apply no_transcribe_uses_model|].
      destruct (env_print env loaded_notice); [by repeat constructor|].
      destruct (env_print env _); by repeat constructor.
Qed.

Lemma one_model_serve rs w :
  one_model w -> one_model (snd (serve rs w)).
Proof.
  revert w. induction rs as [|r rs IH]; intros w Hinv; [done|].
  simpl. destruct (route r w) as [o w1] eqn:Hr.
  assert (one_model w1) as Hinv1.
  { destruct r as [|env|env file]; simpl in Hr.
    - by injection Hr as _ <-.
    - by injection Hr as _ <-.
    - pose proof (one_model_transcribe_audio env file w Hinv) as H.
      by rewrite Hr in H. }
  specialize (IH w1 Hinv1). by destruct (serve rs w1).
Qed.

(** X8. In the whole life of a process (start-up, then any requests, served
    one after the other) the model is loaded successfully at most once, and
    all transcriptions are run on one and the same model, the one that the
    global holds. *)
Theorem X8_process_has_one_model (env0 : Env) (rs : list request) :
  let w := snd (run_process env0 rs) in
  (count is_loaded (calls w) <= 1)%nat /\
  (forall m p audio,
     In (Transcribe m p audio) (calls w) -> model w = Some m) /\
  (forall m1 p1 a1 m2 p2 a2,
     In (Transcribe m1 p1 a1) (calls w) ->
     In (Transcribe m2 p2 a2) (calls w) ->
     m1 = m2).
Proof.
  intros w.
  assert (one_model w) as Hinv.
  { unfold w, run_process.
    pose proof (one_model_startup_event env0 init_world one_model_init) as H0.
    destruct (startup_event env0 init_world) as [[e|[]] w0]; simpl in H0; [done|].
    by apply one_model_serve. }
  assert (forall m p audio,
            In (Transcribe m p audio) (calls w) -> model w = Some m) as Hrun.
  { intros m p audio Hin. unfold one_model in Hinv.
    destruct (model w) as [m0|].
    - destruct Hinv as [_ Hall]. rewrite Forall_forall in Hall.
      apply list_elem_of_In, Hall in Hin. simpl in Hin. by subst.
    - destruct Hinv as [_ Hnone]. apply count_zero_Forall in Hnone.
      rewrite Forall_forall in Hnone.
      apply list_elem_of_In, Hnone in Hin. discriminate. }
  split; [|split; [exact Hrun|]].
  - unfold one_model in Hinv. destruct (model w); destruct Hinv as [-> _]; lia.
  - intros m1 p1 a1 m2 p2 a2 H1 H2.
    apply Hrun in H1. apply Hrun in H2. congruence.
Qed.





(** ** The check of the file type *)

(** X10. The check of the file type passes if and only if the content type
    contains "audio" or "video/webm", or the file name has an allowed
    extension; for WebM sent as video the file name is not even looked at,
    so it may be missing. *)
Theorem X10_validation_passes_iff (file : UploadFile) (w : World) :
  (fst (validate_file_type file w) = inr tt <->
   PyStr.contains "audio" (or_empty (content_type file)) = true \/
   PyStr.contains "video/webm" (or_empty (content_type file)) = true \/
   exists fn, filename file = Some fn /\
              In (PyStr.lower (snd (PosixPath.splitext fn))) allowed_extensions) /\
  (PyStr.contains "video/webm" (or_empty (content_type file)) = true ->
   validate_file_type (mkUpload None (content_type file) (upload_bytes file)) w
   = (inr tt, w)).
Proof.
  unfold validate_file_type.
  assert (existsb (fun t => PyStr.contains t (or_empty (content_type file)))
            content_type_markers
          = PyStr.contains "audio" (or_empty (content_type file))
            || PyStr.contains "video/webm" (or_empty (content_type file))) as ->.
  { simpl. by rewrite orb_false_r. }
  split.
  - destruct (PyStr.contains "audio" _) eqn:Ha; [by split; auto|].
    destruct (PyStr.contains "video/webm" _) eqn:Hv; [by split; auto|].
    simpl negb. cbv iota.
    destruct (filename file) as [fn|]; unfold bind, os_path_splitext, ret, raise;
      cbv beta iota.
    + destruct (existsb _ allowed_extensions) eqn:Hext; simpl.
      * split; [|done]. intros _. right. right. exists fn. split; [done|].
        by apply allowed_extension_In.
      * split; [done|]. intros [H | [H | (fn' & [= <-] & Hin)]]; try done.
        apply allowed_extension_In in Hin. congruence.
    + split; [done|]. by intros [H | [H | (fn' & [=] & _)]].
  - simpl. intros ->. by rewrite orb_true_r.
Qed.

Lemma ascii_lower_keeps_separator (c a : ascii) :
  c = PosixPath.sep \/ c = PosixPath.extsep ->
  Ascii.eqb (PyStr.lower_ascii a) c = Ascii.eqb a c.
Proof.
  intros [-> | ->];
    destruct a as [[] [] [] [] [] [] [] []]; reflexivity.
Qed.

Lemma lower_ascii_idempotent (a : ascii) :
  PyStr.lower_ascii (PyStr.lower_ascii a) = PyStr.lower_ascii a.
Proof. destruct a as [[] [] [] [] [] [] [] []]; reflexivity. Qed.

Lemma lower_idempotent (s : string) : PyStr.lower (PyStr.lower s) = PyStr.lower s.
Proof.
  induction s as [|a s IH]; [done|]. simpl. by rewrite lower_ascii_idempotent, IH.
Qed.

Lemma rfind_from_lower c s i acc :
  c = PosixPath.sep \/ c = PosixPath.extsep ->
  PyStr.rfind_from c (PyStr.lower s) i acc = PyStr.rfind_from c s i acc.
Proof.
  intros Hc. revert i acc. induction s as [|a s IH]; intros i acc; [done|].
  simpl. by rewrite ascii_lower_keeps_separator, IH.
Qed.

Lemma take_lower n s : PyStr.take n (PyStr.lower s) = PyStr.lower (PyStr.take n s).
Proof.
  revert s. induction n as [|n IH]; intros [|a s]; try done.
  simpl. by rewrite IH.
Qed.

Lemma drop_lower n s : PyStr.drop n (PyStr.lower s) = PyStr.lower (PyStr.drop n s).
Proof.
  revert s. induction n as [|n IH]; intros [|a s]; try done.
  simpl. by rewrite IH.
Qed.

Lemma slice1_is_dot_lower s i :
  String.eqb (PyStr.slice1 (PyStr.lower s) i) (String PosixPath.extsep EmptyString)
  = String.eqb (PyStr.slice1 s i) (String PosixPath.extsep EmptyString).
Proof.
  unfold PyStr.slice1. rewrite drop_lower, take_lower.
  destruct (PyStr.drop (Z.to_nat i) s) as [|a s']; [done|].
  simpl. rewrite ascii_lower_keeps_separator by (by right).
  destruct (Ascii.eqb a PosixPath.extsep); [|done].
  by destruct s'.
Qed.

Lemma skip_dots_lower p f d k :
  PosixPath.skip_dots (PyStr.lower p) f d k
  = (PyStr.lower (fst (PosixPath.skip_dots p f d k)),
     PyStr.lower (snd (PosixPath.skip_dots p f d k))).
Proof.
  revert f. induction k as [|k IH]; intros f; [done|].
  simpl. rewrite slice1_is_dot_lower.
  destruct (negb _).
  - unfold PyStr.slice_to, PyStr.slice_from. by rewrite take_lower, drop_lower.
  - apply IH.
Qed.

(** [os.path.splitext] and [str.lower] can be swapped. *)
Lemma splitext_lower p :
  PosixPath.splitext (PyStr.lower p)
  = (PyStr.lower (fst (PosixPath.splitext p)),
     PyStr.lower (snd (PosixPath.splitext p))).
Proof.
  unfold PosixPath.splitext, PyStr.rfind.
  rewrite !rfind_from_lower by auto.
  destruct (_ <? _); [|done].
  apply skip_dots_lower.
Qed.

(** X11. The extension is compared without regard to case, the whole file
    name with it: two uploads whose file names differ only in the case of
    their ASCII letters, with the same content type, get the same outcome
    from the check of the file type. *)
Theorem X11_file_name_case_is_ignored
    (fn1 fn2 : string) (ctype : option string) (bytes1 bytes2 : list byte)
    (w : World) :
  PyStr.lower fn1 = PyStr.lower fn2 ->
  validate_file_type (mkUpload (Some fn1) ctype bytes1) w
  = validate_file_type (mkUpload (Some fn2) ctype bytes2) w.
Proof.
  intros Heq.
  assert (PyStr.lower (snd (PosixPath.splitext fn1))
          = PyStr.lower (snd (PosixPath.splitext fn2))) as Hext.
  { pose proof (splitext_lower fn1) as H1. pose proof (splitext_lower fn2) as H2.
    rewrite Heq, H2 in H1. by injection H1 as _ <-. }
  unfold validate_file_type. simpl.
  destruct (negb _); [|done].
  unfold bind, os_path_splitext, ret. cbv beta iota. by rewrite Hext.
Qed.

Lemma X11_file_name_case_witness :
  validate_file_type (mkUpload (Some "Memo.Ogg") None speech) init_world
  = validate_file_type (mkUpload (Some "memo.OGG") None []) init_world.
Proof.
  apply (X11_file_name_case_is_ignored "Memo.Ogg" "memo.OGG" None speech []
           init_world).
  reflexivity.
Defined.

Lemma prefix_append t b : String.prefix t (t +:+ b) = true.
Proof.
  induction t as [|a t IH]; [by destruct b|].
  simpl. by destruct (ascii_dec a a).
Qed.

Lemma contains_prefix t s : String.prefix t s = true -> PyStr.contains t s = true.
Proof. intros H. destruct s; cbn [PyStr.contains]; by rewrite H. Qed.

Lemma contains_append_r t a s :
  PyStr.contains t s = true -> PyStr.contains t (a +:+ s) = true.
Proof.
  intros H. induction a as [|c a IH]; [done|].
  simpl. rewrite IH. apply orb_true_r.
Qed.

(** X12. The response to an upload of an unsupported type names the declared
    content type: on a console that takes the notice of the error, its detail
    is the text of the exception raised by the check, which contains the
    content type and the list of the formats to use. *)
Theorem X12_rejection_names_the_content_type
    (env : Env) (file : UploadFile) (w : World) (fn : string) :
  console_works env ->
  existsb (fun t => PyStr.contains t (or_empty (content_type file)))
    content_type_markers = false ->
  filename file = Some fn ->
  ~ In (PyStr.lower (snd (PosixPath.splitext fn))) allowed_extensions ->
  exists detail,
    body (respond (fst (transcribe_audio env file w)))
    = VDict [("detail", VStr detail)] /\
    PyStr.contains (or_empty (content_type file)) detail = true /\
    PyStr.contains "Use webm, wav, mp3, m4a, or ogg" detail = true.
Proof.
  intros Hc Hm Hfn Hext.
  assert (fst (validate_file_type file init_world)
          = inl (HTTPException 400
                   ("Unsupported file type: " +:+ or_empty (content_type file)
                    +:+ ". Use webm, wav, mp3, m4a, or ogg"))) as Hv.
  { unfold validate_file_type. rewrite Hm, Hfn. simpl negb. cbv iota.
    unfold bind, os_path_splitext, ret. cbv beta iota.
    destruct (existsb _ allowed_extensions) eqn:Hin; [|reflexivity].
    apply allowed_extension_In in Hin. contradiction. }
  rewrite (transcribe_audio_rejected env file w _ Hv), on_exception_quiet by done.
  eexists. split; [reflexivity|]. unfold str_exn. split.
  - do 3 apply contains_append_r. apply contains_prefix, prefix_append.
  - do 4 apply contains_append_r.
    change ". Use webm, wav, mp3, m4a, or ogg"
      with (". " +:+ "Use webm, wav, mp3, m4a, or ogg").
    apply contains_append_r, contains_prefix.
    apply (prefix_append "Use webm, wav, mp3, m4a, or ogg" "").
Qed.

Lemma X12_rejection_witness :
  exists detail,
    body (respond (fst (transcribe_audio env_ok clip_txt init_world)))
    = VDict [("detail", VStr detail)] /\
    PyStr.contains "text/plain" detail = true /\
    PyStr.contains "Use webm, wav, mp3, m4a, or ogg" detail = true.
Proof.
  apply (X12_rejection_names_the_content_type env_ok clip_txt init_world "clip.txt").
  - intros text. reflexivity.
  - reflexivity.
  - reflexivity.
  - vm_compute. intros H. repeat (destruct H as [H|H]; [discriminate H|]). exact H.
Defined.

(** ** After the check, only the bytes count *)

Lemma save_to_temp_file_bytes env file1 file2 :
  upload_bytes file1 = upload_bytes file2 ->
  save_to_temp_file env file1 = save_to_temp_file env file2.
Proof.
  intros Hb.
  assert (file_read env file1 = file_read env file2) as Hread.
  { unfold file_read. by rewrite Hb. }
  unfold save_to_temp_file. by rewrite Hread.
Qed.

Lemma run_model_notice env file1 file2 content p :
  env_print env (transcribing_notice file1 content)
  = env_print env (transcribing_notice file2 content) ->
  run_model env file1 content p = run_model env file2 content p.
Proof.
  intros Hn. unfold run_model, invoke_model, print. by rewrite Hn.
Qed.

(** X13. Once an upload has passed the check of the file type, its file name
    and content type play no part but for the notice that names the file:
    the temporary file always gets the suffix .webm, and two accepted
    uploads with the same bytes, whose notices the console treats alike,
    have the same outcome and the same effect on the world. *)
Theorem X13_accepted_uploads_differ_only_in_bytes
    (env : Env) (file1 file2 : UploadFile) (w : World) :
  fst (validate_file_type file1 init_world) = inr tt ->
  fst (validate_file_type file2 init_world) = inr tt ->
  upload_bytes file1 = upload_bytes file2 ->
  env_print env (transcribing_notice file1 (upload_bytes file1))
  = env_print env (transcribing_notice file2 (upload_bytes file2)) ->
  transcribe_audio env file1 w = transcribe_audio env file2 w.
Proof.
  intros Hv1 Hv2 Hb Hn.
  unfold transcribe_audio, try_except, bind.
  rewrite (validate_file_type_pure file1 w), (validate_file_type_pure file2 w).
  rewrite Hv1, Hv2.
  rewrite <- (save_to_temp_file_bytes env file1 file2 Hb).
  destruct (save_to_temp_file env file1 w) as [[e|[content p]] w1] eqn:Hs; [done|].
  destruct (save_to_temp_file_inr _ _ _ _ _ _ Hs) as (-> & _).
  cbn [fst snd].
  rewrite (run_model_notice env file1 file2 (upload_bytes file1) p); [done|].
  by rewrite Hn, Hb.
Qed.

Lemma X13_accepted_uploads_witness :
  transcribe_audio env_ok clip_wav init_world
  = transcribe_audio env_ok recording_OGG init_world.
Proof.
  apply (X13_accepted_uploads_differ_only_in_bytes env_ok clip_wav recording_OGG
           init_world); reflexivity.
Defined.
